(** * Fraud-detector UI: the analysis controller of [App.jsx]

    A shallow embedding of [src/frontend/fraud-detector-ui/src/App.jsx]:
    the submit handler [analyzeAddress], the two classifiers
    [getRiskColor] and [getRiskLevel], and the element tree that the
    component function [App] returns.

    Conventions of the embedding.
    - A JavaScript string is a [string]; a character stands for one code
      unit in the range 0..255.
    - A JavaScript number is an IEEE-754 binary64 value, the [spec_float]
      of the standard library with precision 53 and maximal exponent 1024.
    - The parsed response body is the JSON value [null] or an object
      typed by the service contract: an [AnalysisResult] on a success
      status, an [ErrorPayload] otherwise.  A field that may be missing
      is an [option]; reading a property of [null] or of a missing object
      raises [TypeError], as it does in JavaScript.
    - React state is the record [State]; a handler is the list of setter
      calls and network requests it performs, in program order. *)

From Stdlib Require Import ZArith Bool Ascii String List Lia.
From Stdlib Require Import DecimalString.
From Stdlib Require Import Floats.SpecFloat.
From stdpp Require Import gmap strings.
Import ListNotations.

Local Open Scope Z_scope.
Set Warnings "-register-all".

(** ** Strings *)

Module Str.

(** The code units below 256 that [String.prototype.trim] strips:
    TAB, LF, VT, FF, CR, SPACE and NO-BREAK SPACE. *)
Definition is_white_space (c : ascii) : bool :=
  let n := nat_of_ascii c in
  ((9 <=? n)%nat && (n <=? 13)%nat) || (n =? 32)%nat || (n =? 160)%nat.

Fixpoint trimStart (s : string) : string :=
  match s with
  | EmptyString => EmptyString
  | String c s' => if is_white_space c then trimStart s' else s
  end.

Fixpoint trimEnd (s : string) : string :=
  match s with
  | EmptyString => EmptyString
  | String c s' =>
      match trimEnd s' with
      | EmptyString => if is_white_space c then EmptyString else String c EmptyString
      | t => String c t
      end
  end.

(** [s.trim()] *)
Definition trim (s : string) : string := trimEnd (trimStart s).

(** [s.startsWith(p)] *)
Definition startsWith (s p : string) : bool := String.prefix p s.

(** [s.length] *)
Definition length (s : string) : Z := Z.of_nat (String.length s).

(** [ToBoolean] of a string: only the empty string is falsy. *)
Definition truthy (s : string) : bool :=
  match s with EmptyString => false | _ => true end.

(** [n] copies of the character [c]. *)
Fixpoint repeat (c : ascii) (n : nat) : string :=
  match n with
  | O => EmptyString
  | S n' => String c (repeat c n')
  end.

Definition is_digit (c : ascii) : bool :=
  let n := nat_of_ascii c in (48 <=? n)%nat && (n <=? 57)%nat.

Fixpoint all_digits (s : string) : bool :=
  match s with
  | EmptyString => true
  | String c s' => is_digit c && all_digits s'
  end.

End Str.

(** ** Numbers *)

Module Num.

(** A Number is a binary64 floating-point value. *)
Definition number : Type := spec_float.

Definition prec : Z := 53.
Definition emax : Z := 1024.

(** The values that are doubles: canonical mantissa and exponent. *)
Definition is_double (x : number) : bool := valid_binary prec emax x.

(** The double nearest to an integer, ties to even: how an integer
    literal is read. *)
Definition of_Z (n : Z) : number := binary_normalize prec emax n 0 false.

(** [x * y] *)
Definition mul (x y : number) : number := SFmul prec emax x y.

(** [x > y]; false as soon as one side is NaN. *)
Definition gt (x y : number) : bool := SFltb y x.

(** [x <= y]; false as soon as one side is NaN. *)
Definition le (x y : number) : bool := SFleb x y.

(** The literal [0.8]: 0x1.999999999999ap-1. *)
Definition lit_0_8 : number := S754_finite false 7205759403792794 (-53).

(** The literal [100]. *)
Definition lit_100 : number := S754_finite false 7036874417766400 (-46).

(** The literals [0] and [1]. *)
Definition lit_0 : number := S754_zero false.
Definition lit_1 : number := S754_finite false 4503599627370496 (-52).

(** A confidence: a double between 0 and 1. *)
Definition in_unit_interval (x : number) : bool :=
  is_double x && le lit_0 x && le x lit_1.

(** The decimal digits of a non-negative integer, ["0"] for zero. *)
Definition digits (n : Z) : string :=
  NilZero.string_of_uint (N.to_uint (Z.to_N n)).

(** Whether [m * 2^e >= 10^21]. *)
Definition at_least_1e21 (m : positive) (e : Z) : bool :=
  if 0 <=? e then 10 ^ 21 <=? Z.pos m * 2 ^ e
  else 10 ^ 21 * 2 ^ (- e) <=? Z.pos m.

(** The integer [n] for which [n / 10^f - m * 2^e] is closest to zero,
    the larger one if there are two. *)
Definition nearest_scaled (m : positive) (e : Z) (f : nat) : Z :=
  let v := Z.pos m * 10 ^ Z.of_nat f in
  if 0 <=? e then v * 2 ^ e
  else (2 * v + 2 ^ (- e)) / (2 * 2 ^ (- e)).

(** The digits of [n] with a decimal point before the last [f] of
    them, padded with leading zeros to [f + 1] digits. *)
Definition fixed_digits (n : Z) (f : nat) : string :=
  let m := digits n in
  match f with
  | O => m
  | _ =>
      let k := String.length m in
      let m := if (k <=? f)%nat then Str.repeat "0" (f + 1 - k) +:+ m else m in
      let k := String.length m in
      substring 0 (k - f) m +:+ "." +:+ substring (k - f) f m
  end.

Section Shortest.
(** The search of [Number::toString] for the shortest decimal
    significand [s] (of [k] digits) and exponent [p] with
    [s * 10^p] reading back as [x]; [N] is the exact value of [x],
    an integer of [d] digits. *)
Variables (x : number) (N : Z) (d : Z).

Definition reads_back (k : Z) (c : Z * Z) : bool :=
  let '(s, p) := c in
  (10 ^ (k - 1) <=? s) && (s <? 10 ^ k) && SFeqb (of_Z (s * 10 ^ p)) x.

Definition distance (c : Z * Z) : Z :=
  let '(s, p) := c in Z.abs (s * 10 ^ p - N).

(** The closer of two candidates, the even significand on a tie. *)
Definition closer (c1 c2 : Z * Z) : Z * Z :=
  if distance c1 <? distance c2 then c1
  else if distance c2 <? distance c1 then c2
  else if Z.even (fst c1) then c1 else c2.

Definition best (cs : list (Z * Z)) : option (Z * Z) :=
  match cs with
  | [] => None
  | c :: cs' => Some (fold_left closer cs' c)
  end.

Definition candidates (k : Z) : list (Z * Z) :=
  let p := d - k in
  filter (reads_back k)
    [ (N / 10 ^ p, p); (N / 10 ^ p + 1, p);
      (N / 10 ^ (p + 1), p + 1); (N / 10 ^ (p + 1) + 1, p + 1) ].

Fixpoint shortest (k : Z) (fuel : nat) : Z * Z * Z :=
  match fuel with
  | O => (N, 0, d)
  | S fuel' =>
      match best (candidates k) with
      | Some (s, p) => (s, p, k)
      | None => shortest (k + 1) fuel'
      end
  end.
End Shortest.

(** [Number::toString(x)] in radix 10 for the values on which [toFixed]
    falls back to it: NaN, the infinities, and finite values of
    magnitude at least 10^21, which print in exponential notation. *)
Definition toString_exp (x : number) : string :=
  match x with
  | S754_nan => "NaN"
  | S754_infinity s => if s then "-Infinity" else "Infinity"
  | S754_zero _ => "0"
  | S754_finite s m e =>
      let N := if 0 <=? e then Z.pos m * 2 ^ e else Z.pos m / 2 ^ (- e) in
      let d := Z.of_nat (String.length (digits N)) in
      let '(sg, p, k) := shortest (S754_finite false m e) N d 1 17 in
      let ds := digits sg in
      let n := p + k in
      (if s then "-" else "") +:+
      (match ds with
       | String c (String _ _ as rest) => String c ("." +:+ rest)
       | _ => ds
       end) +:+ "e+" +:+ digits (n - 1)
  end.

(** [x.toFixed(f)] *)
Definition toFixed (x : number) (f : nat) : string :=
  match x with
  | S754_nan | S754_infinity _ => toString_exp x
  | S754_zero _ => fixed_digits 0 f
  | S754_finite s m e =>
      (if s then "-" else "") +:+
      (if at_least_1e21 m e then toString_exp (S754_finite false m e)
       else fixed_digits (nearest_scaled m e f) f)
  end.

(** A result of [toFixed] in fixed notation: an optional sign, at least
    one integer digit, a point and exactly [f] fraction digits. *)
Definition fixed_notation (f : nat) (s : string) : Prop :=
  exists sign int frac,
    s = sign +:+ int +:+ "." +:+ frac /\
    (sign = "" \/ sign = "-") /\
    int <> "" /\ Str.all_digits int = true /\
    Str.all_digits frac = true /\ String.length frac = f.

(** The values for which [toFixed] uses fixed notation: finite and of
    magnitude below 10^21. *)
Definition in_fixed_range (x : number) : bool :=
  match x with
  | S754_nan | S754_infinity _ => false
  | S754_zero _ => true
  | S754_finite _ m e => negb (at_least_1e21 m e)
  end.

End Num.

(** ** Completions: a value, or a thrown exception *)

Inductive exn : Type :=
| TypeError    (* reading a property of [undefined] or [null] *)
| FetchError   (* the promise of [fetch] rejected: no response arrived *)
| SyntaxError. (* the promise of [response.json()] rejected *)

Inductive completion (A : Type) : Type :=
| Normal (a : A)
| Throw (e : exn).
Arguments Normal {A} a.
Arguments Throw {A} e.

#[global] Instance completion_ret : MRet completion := fun A a => Normal a.
#[global] Instance completion_bind : MBind completion := fun A B k m =>
  match m with
  | Normal a => k a
  | Throw e => Throw e
  end.

(** ** Data model *)

Import Num (number).

(** The body of a success response.  [features] and [explanations] are
    optional; [None] stands for a missing (or [null]) field. *)
Record AnalysisResult : Type := {
  address : string;
  verdict : string;
  confidence : number;
  transaction_count : number;
  features : option (gmap string number);
  explanations : option (list (string * number))
}.

(** The body of a non-success response: [error] is optional. *)
Record ErrorPayload : Type := {
  error : option string
}.

(** The four [useState] cells of [App]. *)
Record State : Type := {
  st_address : string;
  st_result : option AnalysisResult;   (* [null] is [None] *)
  st_loading : bool;
  st_error : string
}.

(** [useState("")], [useState(null)], [useState(false)], [useState("")] *)
Definition initial : State :=
  {| st_address := ""; st_result := None; st_loading := false; st_error := "" |}.

(** The argument of [fetch]; [body_address] is the value of the [address]
    key of the object given to [JSON.stringify]. *)
Record Request : Type := {
  url : string;
  method : string;
  content_type : string;
  body_address : string
}.

(** What the handler does to the outside, in program order. *)
Inductive event : Type :=
| SetError (msg : string)
| SetLoading (b : bool)
| SetResult (r : option AnalysisResult)
| Fetch (req : Request).

Definition apply_event (s : State) (ev : event) : State :=
  match ev with
  | SetError msg =>
      {| st_address := st_address s; st_result := st_result s;
         st_loading := st_loading s; st_error := msg |}
  | SetLoading b =>
      {| st_address := st_address s; st_result := st_result s;
         st_loading := b; st_error := st_error s |}
  | SetResult r =>
      {| st_address := st_address s; st_result := r;
         st_loading := st_loading s; st_error := st_error s |}
  | Fetch _ => s
  end.

(** The state after a sequence of events. *)
Definition run (s : State) (evs : list event) : State :=
  fold_left apply_event evs s.

(** How the network answers one request.  The parsed body [data] is an
    object typed by [response.ok], the flag that selects how it is
    used, or the JSON value [null], under either value of the flag. *)
Inductive Parsed : Type :=
| Success (data : AnalysisResult)   (* [response.ok], an object *)
| Failure (data : ErrorPayload)     (* [!response.ok], an object *)
| Null (ok : bool).                 (* [data] is [null] *)

Inductive Response : Type :=
| Json (p : Parsed)        (* [response.json()] resolves *)
| NoJson (ok : bool).      (* [response.json()] rejects: the body does not parse *)

Inductive outcome : Type :=
| Rejected                 (* [fetch] rejects: connection failure *)
| Resolved (r : Response). (* [fetch] resolves with a response *)

(** ** The handler monad: events emitted so far and a completion *)

Definition Handler (A : Type) : Type := list event * completion A.

#[global] Instance handler_ret : MRet Handler := fun A a => ([], Normal a).
#[global] Instance handler_bind : MBind Handler := fun A B k m =>
  match m with
  | (evs, Normal a) => let '(evs', c) := k a in (evs ++ evs', c)
  | (evs, Throw e) => (evs, Throw e)
  end.

Definition emit (ev : event) : Handler unit := ([ev], Normal tt).
Definition throw {A} (e : exn) : Handler A := ([], Throw e).

Definition setError (msg : string) : Handler unit := emit (SetError msg).
Definition setLoading (b : bool) : Handler unit := emit (SetLoading b).
Definition setResult (r : option AnalysisResult) : Handler unit := emit (SetResult r).

(** [try { body } catch (err) { handler } finally { final }] *)
Definition try_catch_finally
    (body : Handler unit) (handler : exn -> Handler unit) (final : Handler unit)
  : Handler unit :=
  let protected :=
    match body with
    | (evs, Normal a) => (evs, Normal a)
    | (evs, Throw e) => let '(evs', c) := handler e in (evs ++ evs', c)
    end in
  match protected with
  | (evs, Normal _) => let '(evs', c) := final in (evs ++ evs', c)
  | (evs, Throw e) =>
      match final with
      | (evs', Normal _) => (evs ++ evs', Throw e)
      | (evs', Throw e') => (evs ++ evs', Throw e')
      end
  end.

(** [await fetch(req)]: the request leaves; the promise resolves with the
    response or rejects. *)
Definition fetch (net : outcome) (req : Request) : Handler Response :=
  _ ← emit (Fetch req);
  match net with
  | Rejected => throw FetchError
  | Resolved r => mret r
  end.

(** [await response.json()] *)
Definition json (response : Response) : Handler Parsed :=
  match response with
  | Json p => mret p
  | NoJson _ => throw SyntaxError
  end.

(** [a || b] on an optional string and a string: [a] when it is present
    and non-empty. *)
Definition or_else (a : option string) (b : string) : string :=
  match a with
  | Some s => if Str.truthy s then s else b
  | None => b
  end.

(** ** [analyzeAddress] *)

(** The request of the handler: a POST of [{ address: address.trim() }]
    as JSON. *)
Definition analyze_request (address : string) : Request :=
  {| url := "http://localhost:5001/api/analyze";
     method := "POST";
     content_type := "application/json";
     body_address := Str.trim address |}.

Definition analyzeAddress (address : string) (net : outcome) : Handler unit :=
  if negb (Str.truthy (Str.trim address)) then
    setError "Please enter an Ethereum address"
  else if negb (Str.startsWith address "0x") || negb (Str.length address =? 42) then
    setError "Invalid Ethereum address format"
  else
    _ ← setLoading true;
    _ ← setError "";
    _ ← setResult None;
    try_catch_finally
      (response ← fetch net (analyze_request address);
       data ← json response;
       match data with
       | Success data => setResult (Some data)
       | Failure data => setError (or_else (error data) "Failed to analyze address")
       | Null ok =>
           if ok then setResult None
           else throw TypeError   (* [data.error] reads a property of [null] *)
       end)
      (fun err =>
         setError "Failed to connect to API. Make sure the backend is running on port 5001.")
      (setLoading false).

(** One click on the button: the handler closes over the [address] of the
    state it was rendered from. *)
Definition submit (s : State) (net : outcome) : list event :=
  fst (analyzeAddress (st_address s) net).

(** ** The classifiers *)

Definition getRiskColor (verdict : string) : string :=
  if String.eqb verdict "flagged" then "#ff4444"
  else if String.eqb verdict "not flagged" then "#44ff44"
  else "#ffaa44".

Definition getRiskLevel (verdict : string) (confidence : number) : string :=
  if String.eqb verdict "flagged" then
    if Num.gt confidence Num.lit_0_8 then "High Risk" else "Medium Risk"
  else if String.eqb verdict "not flagged" then
    if Num.gt confidence Num.lit_0_8 then "Low Risk" else "Medium Risk"
  else "Unknown".

(** ** The element tree returned by [App] *)

(** A primitive value in child or attribute position. *)
Inductive prim : Type :=
| PUndefined
| PNull
| PBool (b : bool)
| PNum (x : number)
| PStr (s : string).

Inductive callback : Type :=
| Call_analyzeAddress                (* [onClick={analyzeAddress}] *)
| Call_setAddress_of_target_value.   (* [onChange={(e) => setAddress(e.target.value)}] *)

Inductive prop : Type :=
| Attr (p : prim)
| Style (decls : list (string * string))
| On (f : callback).

Inductive node : Type :=
| Prim (p : prim)                    (* [{expr}] or literal text *)
| Elem (tag : string) (props : list (string * prop)) (children : list node)
| Fragment (children : list node)    (* [<>...</>] *)
| Array (items : list node).         (* the result of [.map] *)

Definition text (s : string) : node := Prim (PStr s).

(** [<tag className="cls">children</tag>] *)
Definition el (tag cls : string) (children : list node) : node :=
  Elem tag [("className", Attr (PStr cls))] children.

(** [o[k]]: a [TypeError] when [o] is missing. *)
Definition member (o : option (gmap string number)) (k : string)
  : completion (option number) :=
  match o with
  | Some m => Normal (m !! k)
  | None => Throw TypeError
  end.

(** [{v}] for a possibly missing number. *)
Definition number_child (v : option number) : node :=
  match v with
  | Some x => Prim (PNum x)
  | None => Prim PUndefined
  end.

(** [{v?.toFixed(f)}] *)
Definition toFixed_child (v : option number) (f : nat) : node :=
  match v with
  | Some x => text (Num.toFixed x f)
  | None => Prim PUndefined
  end.

(** [<div className="stat-item">] with its label and value spans. *)
Definition stat_item (label : string) (value : list node) : node :=
  el "div" "stat-item"
    [ el "span" "stat-label" [text label];
      el "span" "stat-value" value ].

(** The fragment under [result.features &&], from the five values read
    out of [result.features]. *)
Definition stats_fragment
    (sent received ether_sent ether_received ether_balance : option number)
  : node :=
  Fragment
    [ stat_item "Sent Transactions:" [number_child sent];
      stat_item "Received Transactions:" [number_child received];
      stat_item "Total ETH Sent:" [toFixed_child ether_sent 4; text " ETH"];
      stat_item "Total ETH Received:"
        [toFixed_child ether_received 4; text " "; text "ETH"];
      stat_item "ETH Balance:" [toFixed_child ether_balance 4; text " ETH"] ].

(** [{result.features && (<>...</>)}] *)
Definition features_stats (result : AnalysisResult) : completion node :=
  if bool_decide (is_Some (features result)) then
    sent ← member (features result) "Sent tnx";
    received ← member (features result) "Received Tnx";
    ether_sent ← member (features result) "total Ether sent";
    ether_received ← member (features result) "total ether received";
    ether_balance ← member (features result) "total ether balance";
    mret (stats_fragment sent received ether_sent ether_received ether_balance)
  else mret (Prim PUndefined).

(** The callback of [result.explanations.map]:
    [([feature, impact], index) => <li key={index} ...>]. *)
Definition explanation_item (index : nat) (e : string * number) : node :=
  let '(feature, impact) := e in
  Elem "li"
    [ ("key", Attr (PNum (Num.of_Z (Z.of_nat index))));
      ("className", Attr (PStr "explanation-item")) ]
    [ Elem "strong" [] [text feature; text ":"];
      text " Impact score"; text " ";
      text (Num.toFixed impact 4) ].

(** [xs.map(f)] with the index as second argument. *)
Definition map_indexed {A B} (f : nat -> A -> B) (xs : list A) : list B :=
  imap f xs.

(** [o.length] and [o.map(f)]: a [TypeError] when [o] is missing. *)
Definition length_of {A} (o : option (list A)) : completion Z :=
  match o with
  | Some xs => Normal (Z.of_nat (List.length xs))
  | None => Throw TypeError
  end.

Definition map_of {A B} (o : option (list A)) (f : nat -> A -> B)
  : completion (list B) :=
  match o with
  | Some xs => Normal (map_indexed f xs)
  | None => Throw TypeError
  end.

(** [<div className="explanations">] around the mapped items. *)
Definition explanations_block (items : list node) : node :=
  el "div" "explanations"
    [ Elem "h3" [] [text " AI Explanation"];
      Elem "p" []
        [text "The model flagged this address based on these top factors:"];
      el "ul" "explanation-list" [Array items] ].

(** [{result.explanations && result.explanations.length > 0 && (...)}] *)
Definition explanations_section (result : AnalysisResult) : completion node :=
  if bool_decide (is_Some (explanations result)) then
    n ← length_of (explanations result);
    if n >? 0 then
      items ← map_of (explanations result) explanation_item;
      mret (explanations_block items)
    else mret (Prim (PBool false))
  else mret (Prim PUndefined).

(** [<div className="risk-assessment">] *)
Definition risk_assessment (result : AnalysisResult) : node :=
  el "div" "risk-assessment"
    [ Elem "div"
        [ ("className", Attr (PStr "risk-badge"));
          ("style", Style [("backgroundColor", getRiskColor (verdict result))]) ]
        [ text (if String.eqb (verdict result) "flagged"
                then "FLAGGED" else "NOT FLAGGED") ];
      el "div" "risk-details"
        [ el "div" "risk-level"
            [ text "Risk Level:"; text " ";
              Elem "strong" []
                [text (getRiskLevel (verdict result) (confidence result))] ];
          el "div" "confidence"
            [ text "Confidence:"; text " ";
              Elem "strong" []
                [ text (Num.toFixed (Num.mul (confidence result) Num.lit_100) 1);
                  text "%" ] ] ] ].

(** [<div className="results-section">] with the two optional sections
    in place. *)
Definition results_tree (result : AnalysisResult) (stats expl : node) : node :=
  el "div" "results-section"
    [ el "div" "result-header"
        [ Elem "h2" [] [text "Analysis Results"];
          el "div" "address-info"
            [ Elem "strong" [] [text "Address:"]; text " ";
              text (address result) ] ];
      risk_assessment result;
      el "div" "transaction-info"
        [ Elem "h3" [] [text "Transaction Summary"];
          el "div" "stats-grid"
            [ stat_item "Total Transactions:"
                [Prim (PNum (transaction_count result))];
              stats ] ];
      expl ].

(** [{result && (<div className="results-section">...</div>)}] *)
Definition results_section (result : option AnalysisResult) : completion node :=
  match result with
  | None => mret (Prim PNull)
  | Some result =>
      stats ← features_stats result;
      expl ← explanations_section result;
      mret (results_tree result stats expl)
  end.

(** [{error && <div className="error-message">{error}</div>}] *)
Definition error_message (error : string) : node :=
  if Str.truthy error then el "div" "error-message" [text error]
  else text error.

(** [<div className="input-section">] *)
Definition input_section (address : string) (loading : bool) : node :=
  el "div" "input-section"
    [ el "div" "input-group"
        [ Elem "label" [("htmlFor", Attr (PStr "address"))]
            [text "Ethereum Address:"];
          Elem "input"
            [ ("id", Attr (PStr "address"));
              ("type", Attr (PStr "text"));
              ("value", Attr (PStr address));
              ("onChange", On Call_setAddress_of_target_value);
              ("placeholder", Attr (PStr "0x1234567890abcdef..."));
              ("className", Attr (PStr "address-input"));
              ("disabled", Attr (PBool loading)) ]
            [];
          Elem "button"
            [ ("onClick", On Call_analyzeAddress);
              ("disabled",
               Attr (PBool (loading || negb (Str.truthy (Str.trim address)))));
              ("className", Attr (PStr "analyze-btn")) ]
            [ text (if loading then "Analyzing..." else "Analyze Address") ] ] ].

(** The page around the results. *)
Definition page (s : State) (results : node) : node :=
  el "div" "app"
    [ el "header" "app-header"
        [ Elem "h1" [] [text "Blockchain Fraud Detective"];
          Elem "p" []
            [text "Analyze Ethereum addresses for fraudulent activity using AI"] ];
      el "main" "main-content"
        [ input_section (st_address s) (st_loading s);
          error_message (st_error s);
          results ] ].

(** The component function: the tree it returns for a state. *)
Definition App (s : State) : completion node :=
  results ← results_section (st_result s);
  mret (page s results).

(** ** Reading the tree *)

Definition has_class (cls : string) (props : list (string * prop)) : bool :=
  existsb
    (fun kv =>
       match kv with
       | (k, Attr (PStr v)) => String.eqb k "className" && String.eqb v cls
       | _ => false
       end)
    props.

(** The elements of class [cls] under [n], in document order. *)
Fixpoint by_class (cls : string) (n : node) : list node :=
  match n with
  | Prim _ => []
  | Elem tag props children =>
      (if has_class cls props then [n] else [])
        ++ flat_map (by_class cls) children
  | Fragment children => flat_map (by_class cls) children
  | Array items => flat_map (by_class cls) items
  end.

(** The children of an element. *)
Definition children_of (n : node) : list node :=
  match n with
  | Elem _ _ children => children
  | _ => []
  end.

(** The stat items under [n] as pairs of a label and the children of the
    value span. *)
Definition stats_of (n : node) : list (list node * list node) :=
  map
    (fun item =>
       (flat_map children_of (by_class "stat-label" item),
        flat_map children_of (by_class "stat-value" item)))
    (by_class "stat-item" n).

(** The value shown under a label, if that stat item exists. *)
Definition stat_value (label : string) (n : node) : option (list node) :=
  snd <$> List.find
    (fun lv => match fst lv with
               | [Prim (PStr l)] => String.eqb l label
               | _ => false
               end)
    (stats_of n).

(** The feature name and the impact text of an explanation item. *)
Definition explanation_shown (li : node) : option (string * string) :=
  match li with
  | Elem _ _ [Elem _ _ [Prim (PStr feature); _]; _; _; Prim (PStr impact)] =>
      Some (feature, impact)
  | _ => None
  end.

(** What a query reads off the page rendered for a state. *)
Definition rendered {A} (q : node -> A) (s : State) : completion A :=
  t ← App s; mret (q t).

(** A child that shows an optional number unformatted. *)
Definition shows_raw (v : option number) (n : node) : Prop :=
  match v with
  | Some x => n = Prim (PNum x)
  | None => n = Prim PUndefined
  end.

(** A child that shows an optional number through [toFixed(f)]: nothing
    when it is missing, and [f] fraction digits when it is in the fixed
    range. *)
Definition shows_fixed (f : nat) (v : option number) (n : node) : Prop :=
  match v with
  | Some x =>
      n = text (Num.toFixed x f) /\
      (Num.in_fixed_range x = true -> Num.fixed_notation f (Num.toFixed x f))
  | None => n = Prim PUndefined
  end.

(** What the request cycle looks like to the user: a result with no
    error, or an error with no result, and the Loading flag off. *)
Definition is_succeeded (s : State) (r : AnalysisResult) : Prop :=
  st_result s = Some r /\ st_error s = "" /\ st_loading s = false.

Definition is_failed (s : State) (msg : string) : Prop :=
  st_error s = msg /\ st_result s = None /\ st_loading s = false.

(** The requests among the events. *)
Definition requests (evs : list event) : list Request :=
  flat_map (fun ev => match ev with Fetch req => [req] | _ => [] end) evs.

(** The state shown while the request is in flight: after the events up
    to the first [Fetch]. *)
Fixpoint before_fetch (evs : list event) : list event :=
  match evs with
  | [] => []
  | Fetch _ :: _ => []
  | ev :: evs' => ev :: before_fetch evs'
  end.

(** ** The specification's vocabulary *)

(** The label table of the risk classifier, one rule per row. *)
Inductive spec_label : string -> number -> string -> Prop :=
| label_high c :
    Num.gt c Num.lit_0_8 = true -> spec_label "flagged" c "High Risk"
| label_flagged_medium c :
    Num.le c Num.lit_0_8 = true -> spec_label "flagged" c "Medium Risk"
| label_low c :
    Num.gt c Num.lit_0_8 = true -> spec_label "not flagged" c "Low Risk"
| label_cleared_medium c :
    Num.le c Num.lit_0_8 = true -> spec_label "not flagged" c "Medium Risk"
| label_unknown v c :
    v <> "flagged" -> v <> "not flagged" -> spec_label v c "Unknown".

(** An address in the accepted format: the prefix [0x] and 42 code units. *)
Definition well_formed (a : string) : Prop :=
  Str.startsWith a "0x" = true /\ Str.length a = 42.

(** The validator of the specification: both rules read the trimmed
    string.  [inl] carries the error message, [inr] the address to
    submit. *)
Definition spec_validate (raw : string) : string + string :=
  let trimmed := Str.trim raw in
  if String.eqb trimmed "" then inl "Please enter an Ethereum address"
  else if negb (Str.startsWith trimmed "0x") || negb (Str.length trimmed =? 42)
       then inl "Invalid Ethereum address format"
  else inr trimmed.

(** The messages of the handler. *)
Definition msg_empty : string := "Please enter an Ethereum address".
Definition msg_malformed : string := "Invalid Ethereum address format".
Definition msg_service : string := "Failed to analyze address".
Definition msg_connect : string :=
  "Failed to connect to API. Make sure the backend is running on port 5001.".

(** How often an event satisfying [p] occurs. *)
Definition count_events (p : event -> bool) (evs : list event) : nat :=
  List.length (filter p evs).

Definition clears_loading (ev : event) : bool :=
  match ev with SetLoading false => true | _ => false end.

(** The events of a submission that passes the two guards. *)
Definition completion_events (net : outcome) : list event :=
  match net with
  | Resolved (Json (Success data)) => [SetResult (Some data)]
  | Resolved (Json (Failure data)) =>
      [SetError (or_else (error data) msg_service)]
  | Resolved (Json (Null true)) => [SetResult None]
  | Resolved (Json (Null false)) | Resolved (NoJson _) | Rejected =>
      [SetError msg_connect]
  end.

(** ** Sample data *)

Definition sample_address : string :=
  "0x1234567890abcdef1234567890abcdef12345678".

(** A successful analysis of [sample_address]: flagged with confidence
    0.8, seven transactions, five of them sent. *)
Definition sample_result : AnalysisResult :=
  {| address := sample_address;
     verdict := "flagged";
     confidence := Num.lit_0_8;
     transaction_count := Num.of_Z 7;
     features := Some {[ "Sent tnx" := Num.of_Z 5 ]};
     explanations := None |}.

(** A success body with an unrecognised verdict whose [features] object
    is present but empty. *)
Definition bare_result : AnalysisResult :=
  {| address := sample_address;
     verdict := "suspicious";
     confidence := Num.lit_0_8;
     transaction_count := Num.of_Z 0;
     features := Some ∅;
     explanations := Some [] |}.

(** The doubles of some decimal literals. *)
Definition lit_0_1234 : number := S754_finite false 8891907104280307 (-56).
Definition lit_m0_5678 : number := S754_finite true 5114287736841935 (-53).
Definition lit_0_81 : number := S754_finite false 7295831396340204 (-53).
Definition lit_0_95 : number := S754_finite false 8556839292003942 (-53).
Definition lit_0_5 : number := S754_finite false 4503599627370496 (-53).
Definition lit_0_9 : number := S754_finite false 8106479329266893 (-53).

(** A success body without features and with two explanations. *)
Definition explained_result : AnalysisResult :=
  {| address := sample_address;
     verdict := "flagged";
     confidence := lit_0_95;
     transaction_count := Num.of_Z 12;
     features := None;
     explanations := Some [("age", lit_0_1234); ("balance", lit_m0_5678)] |}.

(** A success body with an amount and an impact of 10^21. *)
Definition huge_result : AnalysisResult :=
  {| address := sample_address;
     verdict := "not flagged";
     confidence := lit_0_5;
     transaction_count := Num.of_Z 1;
     features := Some {[ "total Ether sent" := Num.of_Z (10 ^ 21) ]};
     explanations := Some [("volume", Num.of_Z (10 ^ 21))] |}.

(** The state of a user who typed [a] after [r] was shown. *)
Definition typed_after (a : string) (r : option AnalysisResult) : State :=
  {| st_address := a; st_result := r; st_loading := false; st_error := "" |}.

(** ** User actions and the page as a state machine *)

(** [onChange={(e) => setAddress(e.target.value)}] *)
Definition setAddress (s : State) (value : string) : State :=
  {| st_address := value; st_result := st_result s;
     st_loading := st_loading s; st_error := st_error s |}.

(** The props of an element, and one of them by name. *)
Definition props_of (n : node) : list (string * prop) :=
  match n with
  | Elem _ props _ => props
  | _ => []
  end.

Definition prop_of (name : string) (n : node) : option prop :=
  snd <$> List.find (fun kv => String.eqb (fst kv) name) (props_of n).

(** A control with [disabled={true}] receives no user events. *)
Definition is_disabled (n : node) : bool :=
  match prop_of "disabled" n with
  | Some (Attr (PBool b)) => b
  | _ => false
  end.

(** Whether the page rendered for [s] has exactly one element of class
    [cls] and that element is not disabled. *)
Definition enabled (cls : string) (s : State) : bool :=
  match rendered (by_class cls) s with
  | Normal [n] => negb (is_disabled n)
  | _ => false
  end.

(** The user can type into the input, or click the button. *)
Definition can_type (s : State) : bool := enabled "address-input" s.
Definition can_click (s : State) : bool := enabled "analyze-btn" s.

(** The events of a handler after its first [Fetch]: what the suspended
    handler still does once the network has answered. *)
Fixpoint after_fetch (evs : list event) : list event :=
  match evs with
  | [] => []
  | Fetch _ :: evs' => evs'
  | _ :: evs' => after_fetch evs'
  end.

(** The handlers that a run of [analyzeAddress] leaves suspended at
    [await fetch(...)]: one if a request left, none otherwise. *)
Definition suspended (evs : list event) : list (list event) :=
  match requests evs with
  | [] => []
  | _ => [after_fetch evs]
  end.

(** The page between two user or network events: the state shown and the
    continuations of the handlers awaiting an answer. *)
Record ui : Type := {
  shown : State;
  in_flight : list (list event)
}.

(** One event of the page: the user types into the enabled input, the
    user clicks the enabled button (the handler runs up to its first
    [await]), or the network answers one of the pending requests (its
    handler runs to the end). *)
Inductive ui_step : ui -> ui -> Prop :=
| ui_type u value :
    can_type (shown u) = true ->
    ui_step u {| shown := setAddress (shown u) value;
                 in_flight := in_flight u |}
| ui_click u net :
    can_click (shown u) = true ->
    ui_step u {| shown := run (shown u) (before_fetch (submit (shown u) net));
                 in_flight := in_flight u ++ suspended (submit (shown u) net) |}
| ui_answer u before k after :
    in_flight u = before ++ k :: after ->
    ui_step u {| shown := run (shown u) k; in_flight := before ++ after |}.

(** The pages that a session can show, starting from the first render. *)
Definition reachable (u : ui) : Prop :=
  rtc ui_step {| shown := initial; in_flight := [] |} u.

(** The text in the [<strong>] of a labelled line such as the risk level:
    the string children of its last child. *)
Definition strong_text (n : node) : option string :=
  match children_of n with
  | [_; _; Elem _ _ [Prim (PStr s)]] => Some s
  | _ => None
  end.

(** The text and the background colour of the badge. *)
Definition badge_shown (n : node) : option (string * string) :=
  match n with
  | Elem _ [_; (_, Style [(_, colour)])] [Prim (PStr label)] =>
      Some (label, colour)
  | _ => None
  end.

(** The text of an element whose only child is a string: the message of
    the error banner, the label of the button. *)
Definition only_text (n : node) : option string :=
  match children_of n with
  | [Prim (PStr msg)] => Some msg
  | _ => None
  end.

(** Two pages of sample sessions.  The first is shown after typing the
    sample address and clicking, while the request awaits the answer
    [net].  The second is shown after the sample address has been
    analysed with success, "abc" has been typed and the button clicked. *)
Definition loading_page (net : outcome) : ui :=
  {| shown := {| st_address := sample_address; st_result := None;
                 st_loading := true; st_error := "" |};
     in_flight := [completion_events net ++ [SetLoading false]] |}.

Definition stale_page : ui :=
  {| shown := {| st_address := "abc"; st_result := Some sample_result;
                 st_loading := false; st_error := msg_malformed |};
     in_flight := [] |}.

(** What every reachable page satisfies, case by case: either nothing is
    pending and the page is not Loading, with a result next to an error
    only when that error is the format message; or exactly one handler
    is pending, and the page is Loading with no result, no error and a
    well-formed address. *)
Definition session_invariant (u : ui) : Prop :=
  (in_flight u = [] /\ st_loading (shown u) = false /\
   (st_result (shown u) <> None ->
    st_error (shown u) = "" \/ st_error (shown u) = msg_malformed)) \/
  (exists net,
     in_flight u = [completion_events net ++ [SetLoading false]] /\
     st_loading (shown u) = true /\ st_result (shown u) = None /\
     st_error (shown u) = "" /\ well_formed (st_address (shown u))).

(** * Properties *)

(** ** Comparison of numbers *)

Module NumFacts.
Import Num.

Lemma SFcompare_antisym (x y : number) :
  SFcompare y x = option_map CompOpp (SFcompare x y).
Proof.
  destruct x as [sx|sx| |sx mx ex], y as [sy|sy| |sy my ey]; simpl;
    try reflexivity;
    try (destruct sx; reflexivity);
    try (destruct sy; reflexivity);
    try (destruct sx, sy; reflexivity).
  change (Pos.compare_cont Eq mx my) with (Pos.compare mx my).
  change (Pos.compare_cont Eq my mx) with (Pos.compare my mx).
  rewrite (Z.compare_antisym ey ex), (Pos.compare_antisym my mx).
  destruct sx, sy; try reflexivity;
    destruct (ey ?= ex); simpl; try reflexivity;
    destruct (my ?= mx)%positive; reflexivity.
Qed.

(** [x <= y] excludes [x > y]. *)
Lemma le_not_gt (x y : number) : le x y = true -> gt x y = false.
Proof.
  unfold le, gt, SFleb, SFltb. rewrite (SFcompare_antisym x y).
  destruct (SFcompare x y) as [[]|]; simpl; congruence.
Qed.

(** [x > y] excludes [x <= y]. *)
Lemma gt_not_le (x y : number) : gt x y = true -> le x y = false.
Proof.
  unfold le, gt, SFleb, SFltb. rewrite (SFcompare_antisym x y).
  destruct (SFcompare x y) as [[]|]; simpl; congruence.
Qed.

(** Apart from NaN, one of [x > y] and [x <= y] holds. *)
Lemma gt_or_le (x y : number) :
  x <> S754_nan -> y <> S754_nan -> gt x y = true \/ le x y = true.
Proof.
  intros Hx Hy. unfold le, gt, SFleb, SFltb.
  rewrite (SFcompare_antisym x y).
  assert (H : exists c, SFcompare x y = Some c).
  { destruct x, y; try congruence; simpl; eauto. }
  destruct H as [c ->]. destruct c; simpl; auto.
Qed.

Lemma lit_0_8_is_double : is_double lit_0_8 = true.
Proof. reflexivity. Qed.

Lemma lit_100_is_double : is_double lit_100 = true.
Proof. reflexivity. Qed.

(** [100] is the integer literal it stands for. *)
Lemma lit_100_of_Z : lit_100 = of_Z 100.
Proof. reflexivity. Qed.

(** [0.8] is the double nearest to 8/10: its mantissa [m], scaled by
    2^-53, lies within half a unit in the last place of 8/10. *)
Lemma lit_0_8_nearest :
  exists m, lit_0_8 = S754_finite false m (-53) /\
            2 * Z.abs (10 * Z.pos m - 8 * 2 ^ 53) <= 10.
Proof. eexists. split; [reflexivity|]. vm_compute. discriminate. Qed.

End NumFacts.

(** ** The classifiers *)

(** C1. The risk classifier follows the label table: for every verdict
    and confidence, "High Risk" for flagged above 0.8, "Medium Risk" for
    flagged at or below 0.8, "Low Risk" for not flagged above 0.8,
    "Medium Risk" for not flagged at or below 0.8, and "Unknown" for any
    other verdict. *)
Theorem getRiskLevel_table (v : string) (c : number) (l : string) :
  spec_label v c l -> getRiskLevel v c = l.
Proof.
  intros H. unfold getRiskLevel.
  destruct H as [c H|c H|c H|c H|v c Hf Hn]; simpl String.eqb; cbv iota.
  - now rewrite H.
  - now rewrite (NumFacts.le_not_gt _ _ H).
  - now rewrite H.
  - now rewrite (NumFacts.le_not_gt _ _ H).
  - apply String.eqb_neq in Hf, Hn. now rewrite Hf, Hn.
Qed.

(** The boundary value 0.8 itself is "Medium Risk" for both known
    verdicts. *)
Lemma getRiskLevel_boundary :
  getRiskLevel "flagged" Num.lit_0_8 = "Medium Risk" /\
  getRiskLevel "not flagged" Num.lit_0_8 = "Medium Risk".
Proof.
  split.
  - apply (getRiskLevel_table "flagged" Num.lit_0_8 "Medium Risk").
    apply label_flagged_medium. reflexivity.
  - apply (getRiskLevel_table "not flagged" Num.lit_0_8 "Medium Risk").
    apply label_cleared_medium. reflexivity.
Defined.

(** The sample values of the specification. *)
Example getRiskLevel_samples :
  getRiskLevel "flagged" lit_0_81 = "High Risk" /\
  getRiskLevel "flagged" Num.lit_0_8 = "Medium Risk" /\
  getRiskLevel "not flagged" lit_0_95 = "Low Risk" /\
  getRiskLevel "not flagged" lit_0_5 = "Medium Risk" /\
  getRiskLevel "unknown" lit_0_9 = "Unknown".
Proof. repeat split. Qed.

(** The table leaves no finite or infinite confidence out: apart from NaN
    every pair of arguments has a row. *)
Lemma spec_label_total (v : string) (c : number) :
  c <> S754_nan -> exists l, spec_label v c l.
Proof.
  intros Hc.
  destruct (String.eqb_spec v "flagged") as [->|Hf];
    [|destruct (String.eqb_spec v "not flagged") as [->|Hn]].
  - destruct (NumFacts.gt_or_le c Num.lit_0_8 Hc) as [H|H];
      [discriminate| |]; eauto using spec_label.
  - destruct (NumFacts.gt_or_le c Num.lit_0_8 Hc) as [H|H];
      [discriminate| |]; eauto using spec_label.
  - eauto using spec_label.
Qed.

(** C9. The classifiers are total over verdict strings: flagged maps to
    the alert colour, not flagged to the safe colour, and any other
    verdict to the neutral colour and the label "Unknown"; both always
    return one of their fixed strings. *)
Theorem classifiers_total (v : string) :
  (v = "flagged" -> getRiskColor v = "#ff4444") /\
  (v = "not flagged" -> getRiskColor v = "#44ff44") /\
  (v <> "flagged" -> v <> "not flagged" ->
     getRiskColor v = "#ffaa44" /\
     forall c, getRiskLevel v c = "Unknown") /\
  In (getRiskColor v) ["#ff4444"; "#44ff44"; "#ffaa44"] /\
  (forall c, In (getRiskLevel v c)
               ["High Risk"; "Medium Risk"; "Low Risk"; "Unknown"]).
Proof.
  unfold getRiskColor, getRiskLevel.
  split; [|split; [|split; [|split]]].
  - now intros ->.
  - now intros ->.
  - intros Hf Hn. apply String.eqb_neq in Hf, Hn. now rewrite Hf, Hn.
  - destruct (String.eqb v "flagged"), (String.eqb v "not flagged");
      simpl; auto.
  - intros c.
    destruct (String.eqb v "flagged"), (String.eqb v "not flagged"),
      (Num.gt c Num.lit_0_8); simpl; auto.
Qed.

Lemma classifiers_total_samples :
  getRiskColor "flagged" = "#ff4444" /\
  getRiskColor "not flagged" = "#44ff44" /\
  getRiskColor "suspicious" = "#ffaa44" /\
  (forall c, getRiskLevel "suspicious" c = "Unknown").
Proof.
  split; [|split; [|split]].
  - now apply (proj1 (classifiers_total "flagged")).
  - now apply (proj1 (proj2 (classifiers_total "not flagged"))).
  - now apply (proj1 (proj2 (proj2 (classifiers_total "suspicious")))).
  - now apply (proj1 (proj2 (proj2 (classifiers_total "suspicious")))).
Defined.

(** ** Trimming and the format guard *)

Module StrFacts.
Import Str.

Lemma truthy_false (s : string) : truthy s = false <-> s = "".
Proof. destruct s; simpl; split; congruence. Qed.

Lemma truthy_true (s : string) : truthy s = true <-> s <> "".
Proof. destruct s; simpl; split; congruence. Qed.

Lemma trimEnd_cons (c : ascii) (s : string) :
  is_white_space c = false -> truthy (trimEnd (String c s)) = true.
Proof. intros H. simpl. rewrite H. now destruct (trimEnd s). Qed.

(** A string that starts with [0x] does not trim to the empty string. *)
Lemma startsWith_0x_trim (s : string) :
  startsWith s "0x" = true -> truthy (trim s) = true.
Proof.
  unfold startsWith, trim. intros H.
  destruct s as [|c s]; [discriminate H|].
  cbn [String.prefix] in H.
  destruct (ascii_dec "0"%char c) as [<-|]; [|discriminate H].
  cbn [trimStart]. change (is_white_space "0"%char) with false. cbv iota.
  now apply trimEnd_cons.
Qed.

(** The code's format guard fires exactly on the addresses that are not
    [well_formed]. *)
Lemma format_guard (a : string) :
  negb (startsWith a "0x") || negb (length a =? 42) = false <-> well_formed a.
Proof.
  unfold well_formed. rewrite orb_false_iff, !negb_false_iff, Z.eqb_eq.
  reflexivity.
Qed.

Lemma format_guard_not (a : string) :
  ~ well_formed a -> negb (startsWith a "0x") || negb (length a =? 42) = true.
Proof.
  intros H. destruct (negb (startsWith a "0x") || negb (length a =? 42)) eqn:E;
    [reflexivity|]. now apply format_guard in E.
Qed.

End StrFacts.

(** ** The submit handler *)

(** The three ways through [analyzeAddress]. *)
Lemma analyzeAddress_well_formed (a : string) (net : outcome) :
  well_formed a ->
  analyzeAddress a net =
    ([SetLoading true; SetError ""; SetResult None; Fetch (analyze_request a)]
       ++ completion_events net ++ [SetLoading false],
     Normal tt).
Proof.
  intros H. unfold analyzeAddress.
  rewrite (StrFacts.startsWith_0x_trim a (proj1 H)).
  rewrite (proj2 (StrFacts.format_guard a) H). cbv iota. simpl negb. cbv iota.
  destruct net as [|[[data|data|[|]]|ok]]; reflexivity.
Qed.

Lemma analyzeAddress_empty (a : string) (net : outcome) :
  Str.trim a = "" -> analyzeAddress a net = ([SetError msg_empty], Normal tt).
Proof. intros H. unfold analyzeAddress. now rewrite H. Qed.

Lemma analyzeAddress_malformed (a : string) (net : outcome) :
  Str.trim a <> "" -> ~ well_formed a ->
  analyzeAddress a net = ([SetError msg_malformed], Normal tt).
Proof.
  intros Ht Hw. unfold analyzeAddress.
  apply StrFacts.truthy_true in Ht. rewrite Ht.
  now rewrite (StrFacts.format_guard_not a Hw).
Qed.

(** The handler never ends in an unhandled rejection. *)
Lemma analyzeAddress_completes (a : string) (net : outcome) :
  snd (analyzeAddress a net) = Normal tt.
Proof.
  destruct (string_dec (Str.trim a) "") as [He|He].
  - now rewrite analyzeAddress_empty.
  - destruct (bool_decide (Str.startsWith a "0x" = true)) eqn:E1;
      [apply bool_decide_eq_true in E1|apply bool_decide_eq_false in E1];
      [destruct (Z.eq_dec (Str.length a) 42) as [E2|E2]|].
    + now rewrite analyzeAddress_well_formed.
    + rewrite analyzeAddress_malformed; trivial. now intros [_ ?].
    + rewrite analyzeAddress_malformed; trivial. now intros [? _].
Qed.

(** When the validator of the specification fails, it is with the
    message for an empty input or, on a non-empty one, with the format
    message. *)
Lemma spec_validate_fails (raw msg : string) :
  spec_validate raw = inl msg ->
  (Str.trim raw = "" /\ msg = msg_empty) \/
  (Str.trim raw <> "" /\ msg = msg_malformed).
Proof.
  unfold spec_validate.
  destruct (String.eqb_spec (Str.trim raw) "") as [E|E].
  - intros H. left. split; [exact E|]. unfold msg_empty. congruence.
  - destruct (negb (Str.startsWith (Str.trim raw) "0x")
              || negb (Str.length (Str.trim raw) =? 42));
      intros H; [|discriminate H].
    right. split; [exact E|]. unfold msg_malformed. congruence.
Qed.

(** C8, as stated, fails while a result is on screen: "abc" fails
    validation, the handler sets the format error and sends nothing, but
    the earlier result stays, so that the state is not Failed. *)
Lemma failed_validation_keeps_result :
  spec_validate "abc" = inl msg_malformed /\
  submit (typed_after "abc" (Some sample_result)) Rejected
    = [SetError msg_malformed] /\
  ~ is_failed
      (run (typed_after "abc" (Some sample_result))
         (submit (typed_after "abc" (Some sample_result)) Rejected))
      msg_malformed.
Proof.
  split; [reflexivity|]. split; [reflexivity|].
  intros (_ & H & _). discriminate H.
Qed.

(** C8, amended.  For every input that fails local validation (it trims
    to empty, or its trimmed form is malformed) and that the format guard
    of the handler, which reads the raw input, rejects as well: the only
    effect of a submission is to set the error to the validator's
    message, "Please enter an Ethereum address" when the input trims to
    empty (checked first) and "Invalid Ethereum address format"
    otherwise.  No request is issued and no other cell changes: the
    state is Failed with that message when no result was on screen, and
    a result that was on screen stays there. *)
Theorem validation_failure (s : State) (net : outcome) (msg : string) :
  spec_validate (st_address s) = inl msg ->
  ~ well_formed (st_address s) ->
  (if String.eqb (Str.trim (st_address s)) "" then msg = msg_empty
   else msg = msg_malformed) /\
  submit s net = [SetError msg] /\
  requests (submit s net) = [] /\
  run s (submit s net) =
    {| st_address := st_address s; st_result := st_result s;
       st_loading := st_loading s; st_error := msg |} /\
  (st_result s = None -> st_loading s = false ->
   is_failed (run s (submit s net)) msg).
Proof.
  intros Hv Hw. unfold submit.
  destruct (spec_validate_fails _ _ Hv) as [[He ->]|[He ->]].
  - rewrite (analyzeAddress_empty _ net He), He.
    repeat split; assumption.
  - rewrite (analyzeAddress_malformed _ net He Hw).
    apply String.eqb_neq in He. rewrite He.
    repeat split; assumption.
Qed.

Lemma validation_failure_samples :
  (submit (typed_after "   " None) Rejected = [SetError msg_empty] /\
   requests (submit (typed_after "   " None) Rejected) = [] /\
   is_failed (run (typed_after "   " None)
                (submit (typed_after "   " None) Rejected)) msg_empty) /\
  (submit (typed_after "abc" (Some sample_result)) Rejected
     = [SetError msg_malformed] /\
   requests (submit (typed_after "abc" (Some sample_result)) Rejected) = [] /\
   run (typed_after "abc" (Some sample_result))
     (submit (typed_after "abc" (Some sample_result)) Rejected) =
     {| st_address := "abc"; st_result := Some sample_result;
        st_loading := false; st_error := msg_malformed |}).
Proof.
  split.
  - destruct (validation_failure (typed_after "   " None) Rejected msg_empty)
      as (_ & Hs & Hr & _ & Hf).
    + reflexivity.
    + intros [H _]. discriminate H.
    + split; [exact Hs|]. split; [exact Hr|]. apply Hf; reflexivity.
  - destruct (validation_failure (typed_after "abc" (Some sample_result))
                Rejected msg_malformed)
      as (_ & Hs & Hr & Hrun & _).
    + reflexivity.
    + intros [H _]. discriminate H.
    + split; [exact Hs|]. split; [exact Hr|]. exact Hrun.
Defined.

(** A submission that passes validation first shows Loading with no
    result and no error, and sends one request with the trimmed
    address. *)
Lemma submit_enters_loading (s : State) (net : outcome) :
  well_formed (st_address s) ->
  let shown := run s (before_fetch (submit s net)) in
  st_loading shown = true /\ st_result shown = None /\ st_error shown = "" /\
  requests (submit s net) = [analyze_request (st_address s)].
Proof.
  intros H. unfold submit. rewrite (analyzeAddress_well_formed _ net H).
  destruct net as [|[[data|data|[|]]|ok]]; repeat split.
Qed.

(** C7. Every attempt that reaches the network, whatever its outcome,
    clears the Loading flag exactly once, as its last step, and ends with
    the flag off; no attempt at all turns a cleared flag on for good. *)
Theorem loading_cleared_once (s : State) (net : outcome) :
  (well_formed (st_address s) ->
     count_events clears_loading (submit s net) = 1%nat /\
     last (submit s net) = Some (SetLoading false) /\
     st_loading (run s (submit s net)) = false /\
     snd (analyzeAddress (st_address s) net) = Normal tt) /\
  (st_loading s = false -> st_loading (run s (submit s net)) = false).
Proof.
  assert (Hw : well_formed (st_address s) ->
     count_events clears_loading (submit s net) = 1%nat /\
     last (submit s net) = Some (SetLoading false) /\
     st_loading (run s (submit s net)) = false /\
     snd (analyzeAddress (st_address s) net) = Normal tt).
  { intros H. unfold submit. rewrite (analyzeAddress_well_formed _ net H).
    destruct net as [|[[data|data|[|]]|ok]]; repeat split. }
  split; [exact Hw|]. intros Hl.
  destruct (string_dec (Str.trim (st_address s)) "") as [He|He].
  - unfold submit. now rewrite (analyzeAddress_empty _ net He).
  - destruct (bool_decide (Str.startsWith (st_address s) "0x" = true)) eqn:E1;
      [apply bool_decide_eq_true in E1|apply bool_decide_eq_false in E1];
      [destruct (Z.eq_dec (Str.length (st_address s)) 42) as [E2|E2]|].
    + now apply Hw.
    + unfold submit. rewrite analyzeAddress_malformed; trivial.
      now intros [_ ?].
    + unfold submit. rewrite analyzeAddress_malformed; trivial.
      now intros [? _].
Qed.

Lemma loading_cleared_once_sample :
  count_events clears_loading
    (submit (typed_after sample_address None) Rejected) = 1%nat /\
  last (submit (typed_after sample_address None) Rejected)
    = Some (SetLoading false) /\
  st_loading (run (typed_after sample_address None)
                (submit (typed_after sample_address None) Rejected)) = false /\
  snd (analyzeAddress (st_address (typed_after sample_address None)) Rejected)
    = Normal tt.
Proof.
  apply (proj1 (loading_cleared_once (typed_after sample_address None) Rejected)).
  split; reflexivity.
Defined.

(** C4, as stated, fails on an empty [error] string: the field is
    present, yet the generic message is shown, not the service's
    (empty) one.  It also fails on the body [null]: with a non-success
    status the connectivity message is shown, not the generic one, and
    with a success status no result is stored. *)
Lemma empty_service_error_is_replaced :
  (is_failed
     (run (typed_after sample_address None)
        (submit (typed_after sample_address None)
           (Resolved (Json (Failure {| error := Some "" |})))))
     msg_service /\
   ~ is_failed
     (run (typed_after sample_address None)
        (submit (typed_after sample_address None)
           (Resolved (Json (Failure {| error := Some "" |})))))
     "") /\
  (is_failed
     (run (typed_after sample_address None)
        (submit (typed_after sample_address None)
           (Resolved (Json (Null false)))))
     msg_connect /\
   ~ is_failed
     (run (typed_after sample_address None)
        (submit (typed_after sample_address None)
           (Resolved (Json (Null false)))))
     msg_service) /\
  st_result
    (run (typed_after sample_address None)
       (submit (typed_after sample_address None)
          (Resolved (Json (Null true))))) = None.
Proof.
  split; [|split].
  - split; [repeat split|]. intros [H _]. discriminate H.
  - split; [repeat split|]. intros [H _]. discriminate H.
  - reflexivity.
Qed.

(** C4, amended.  For every completed request of a well-formed address:
    a success status with an object as body gives Succeeded with the
    parsed result; a non-success status with an object as body gives
    Failed with the service's [error] string when it is non-empty, and
    with "Failed to analyze address" when the field is absent or empty;
    a transport failure (no connection, a body that does not parse, or
    the body [null] under a non-success status, whose [error] cannot be
    read) gives Failed with the connectivity message, which differs from
    the generic service message; the body [null] under a success status
    leaves neither a result nor an error. *)
Theorem request_completion (s : State) (net : outcome) :
  well_formed (st_address s) ->
  (forall data, net = Resolved (Json (Success data)) ->
     is_succeeded (run s (submit s net)) data) /\
  (forall data e, net = Resolved (Json (Failure data)) ->
     error data = Some e -> e <> "" ->
     is_failed (run s (submit s net)) e) /\
  (forall data, net = Resolved (Json (Failure data)) ->
     error data = None \/ error data = Some "" ->
     is_failed (run s (submit s net)) msg_service) /\
  (net = Rejected \/ (exists ok, net = Resolved (NoJson ok)) \/
   net = Resolved (Json (Null false)) ->
     is_failed (run s (submit s net)) msg_connect) /\
  (net = Resolved (Json (Null true)) ->
     run s (submit s net) = typed_after (st_address s) None) /\
  msg_connect <> msg_service.
Proof.
  intros H. unfold submit. rewrite (analyzeAddress_well_formed _ net H).
  split; [|split; [|split; [|split; [|split]]]]; try discriminate.
  - intros data ->. repeat split.
  - intros data e -> He Hne. cbn [completion_events or_else]. rewrite He.
    destruct e; [contradiction|]. repeat split.
  - intros data -> [He|He]; cbn [completion_events or_else]; rewrite He;
      repeat split.
  - intros [->|[[ok ->]| ->]]; repeat split.
  - intros ->. reflexivity.
Qed.

Lemma request_completion_samples :
  is_succeeded
    (run (typed_after sample_address None)
       (submit (typed_after sample_address None)
          (Resolved (Json (Success sample_result)))))
    sample_result /\
  is_failed
    (run (typed_after sample_address None)
       (submit (typed_after sample_address None)
          (Resolved (Json (Failure {| error := Some "too many requests" |})))))
    "too many requests" /\
  is_failed
    (run (typed_after sample_address None)
       (submit (typed_after sample_address None)
          (Resolved (Json (Failure {| error := None |})))))
    msg_service /\
  is_failed
    (run (typed_after sample_address None)
       (submit (typed_after sample_address None) Rejected))
    msg_connect /\
  is_failed
    (run (typed_after sample_address (Some sample_result))
       (submit (typed_after sample_address (Some sample_result))
          (Resolved (Json (Null false)))))
    msg_connect /\
  run (typed_after sample_address (Some sample_result))
    (submit (typed_after sample_address (Some sample_result))
       (Resolved (Json (Null true))))
    = typed_after sample_address None.
Proof.
  assert (W : well_formed (st_address (typed_after sample_address None)))
    by (split; reflexivity).
  assert (W' : well_formed
                 (st_address (typed_after sample_address (Some sample_result))))
    by (split; reflexivity).
  split; [|split; [|split; [|split; [|split]]]].
  - apply (proj1 (request_completion _ _ W)). reflexivity.
  - apply (proj1 (proj2 (request_completion _ _ W))
             {| error := Some "too many requests" |});
      [reflexivity|reflexivity|discriminate].
  - apply (proj1 (proj2 (proj2 (request_completion _ _ W)))
             {| error := None |}); [reflexivity|now left].
  - apply (proj1 (proj2 (proj2 (proj2 (request_completion _ _ W))))).
    now left.
  - apply (proj1 (proj2 (proj2 (proj2 (request_completion _ _ W'))))).
    right; right; reflexivity.
  - apply (proj1 (proj2 (proj2 (proj2 (proj2 (request_completion _ _ W')))))).
    reflexivity.
Defined.




(** C2.  The format guard reads the raw input, not the trimmed one.  With
    a leading space before a well-formed address, the specification's
    validator accepts the trimmed address while the handler rejects the
    input; with two trailing spaces after a 40-character string, the
    validator rejects while the handler sends the 40 characters. *)
Theorem format_guard_reads_raw_input (net : outcome) :
  let padded := " 0x1234567890abcdef1234567890abcdef12345678" in
  let short := "0x1234567890abcdef1234567890abcdef123456  " in
  (spec_validate padded = inr sample_address /\
   submit (typed_after padded None) net = [SetError msg_malformed]) /\
  (spec_validate short = inl msg_malformed /\
   requests (submit (typed_after short None) net) =
     [ {| url := "http://localhost:5001/api/analyze";
          method := "POST";
          content_type := "application/json";
          body_address := "0x1234567890abcdef1234567890abcdef123456" |} ]).
Proof.
  split; split; try reflexivity.
  unfold submit.
  rewrite analyzeAddress_well_formed by (split; reflexivity).
  destruct net as [|[[data|data|[|]]|ok]]; reflexivity.
Qed.

(** ** Fixed notation *)

Module FixedFacts.
Import Str Num.

Lemma append_cons (c : ascii) (s t : string) :
  String c s +:+ t = String c (s +:+ t).
Proof. reflexivity. Qed.

Lemma length_app (s t : string) :
  String.length (s +:+ t) = (String.length s + String.length t)%nat.
Proof.
  induction s as [|c s IH]; [reflexivity|].
  rewrite append_cons. cbn [String.length]. now rewrite IH.
Qed.

Lemma all_digits_app (s t : string) :
  all_digits (s +:+ t) = all_digits s && all_digits t.
Proof.
  induction s as [|c s IH]; [reflexivity|].
  rewrite append_cons. cbn [all_digits]. now rewrite IH, andb_assoc.
Qed.

Lemma length_repeat (c : ascii) (n : nat) : String.length (repeat c n) = n.
Proof. induction n; cbn [repeat String.length]; congruence. Qed.

Lemma all_digits_repeat_zero (n : nat) : all_digits (repeat "0" n) = true.
Proof. induction n; [reflexivity|]. cbn [repeat all_digits]. now rewrite IHn. Qed.

Lemma length_substring (s : string) (a b : nat) :
  (a + b <= String.length s)%nat -> String.length (substring a b s) = b.
Proof.
  revert a b. induction s as [|c s IH]; intros a b H; cbn [String.length] in H.
  - destruct a, b; try reflexivity; lia.
  - destruct a as [|a]; [destruct b as [|b]; [reflexivity|]|].
    + cbn [substring String.length]. rewrite IH; [reflexivity|lia].
    + cbn [substring]. apply IH. lia.
Qed.

Lemma all_digits_substring (s : string) (a b : nat) :
  all_digits s = true -> all_digits (substring a b s) = true.
Proof.
  revert a b. induction s as [|c s IH]; intros a b H.
  - now destruct a, b.
  - cbn [all_digits] in H. apply andb_true_iff in H as [Hc Hs].
    destruct a as [|a]; [destruct b as [|b]; [reflexivity|]|].
    + cbn [substring all_digits]. now rewrite Hc, IH.
    + cbn [substring]. now apply IH.
Qed.

Lemma all_digits_of_uint (d : Decimal.uint) :
  all_digits (NilEmpty.string_of_uint d) = true.
Proof. induction d; cbn [NilEmpty.string_of_uint all_digits]; auto. Qed.

(** The digits of an integer are decimal digits, at least one. *)
Lemma digits_spec (n : Z) :
  all_digits (digits n) = true /\ (0 < String.length (digits n))%nat.
Proof.
  unfold digits, NilZero.string_of_uint.
  destruct (N.to_uint (Z.to_N n)) as [|d|d|d|d|d|d|d|d|d|d];
    (split;
     [ try reflexivity;
       cbn [NilEmpty.string_of_uint all_digits];
       apply all_digits_of_uint
     | cbn [NilEmpty.string_of_uint String.length]; lia ]).
Qed.

(** [fixed_digits] puts exactly [f] digits after the point and at least
    one before it. *)
Lemma fixed_digits_shape (n : Z) (f : nat) :
  exists int frac,
    fixed_digits n (S f) = int +:+ "." +:+ frac /\
    int <> "" /\ all_digits int = true /\
    all_digits frac = true /\ String.length frac = S f.
Proof.
  unfold fixed_digits.
  destruct (digits_spec n) as [Hd Hl].
  set (m := if (String.length (digits n) <=? S f)%nat
            then repeat "0" (S f + 1 - String.length (digits n)) +:+ digits n
            else digits n).
  assert (Hm : all_digits m = true).
  { subst m. destruct (_ <=? _)%nat; [|exact Hd].
    now rewrite all_digits_app, all_digits_repeat_zero, Hd. }
  assert (Hk : (S f < String.length m)%nat).
  { subst m. destruct (Nat.leb_spec (String.length (digits n)) (S f)).
    - rewrite length_app, length_repeat. lia.
    - lia. }
  exists (substring 0 (String.length m - S f) m),
         (substring (String.length m - S f) (S f) m).
  split; [reflexivity|]. split; [|split; [|split]].
  - intros E. apply (f_equal String.length) in E.
    rewrite length_substring in E by lia. cbn in E. lia.
  - now apply all_digits_substring.
  - now apply all_digits_substring.
  - apply length_substring. lia.
Qed.

(** Within its fixed range, [toFixed] with [f >= 1] returns fixed
    notation with exactly [f] fraction digits. *)
Lemma toFixed_fixed_notation (x : number) (f : nat) :
  in_fixed_range x = true -> fixed_notation (S f) (toFixed x (S f)).
Proof.
  unfold fixed_notation.
  destruct x as [s|s| |s m e]; try discriminate; intros H.
  - destruct (fixed_digits_shape 0 f) as (int & frac & E & H1 & H2 & H3 & H4).
    exists "", int, frac. cbn [toFixed]. rewrite E. auto 10.
  - cbn [in_fixed_range] in H. apply negb_true_iff in H.
    cbn [toFixed]. rewrite H.
    destruct (fixed_digits_shape (nearest_scaled m e (S f)) f)
      as (int & frac & E & H1 & H2 & H3 & H4).
    exists (if s then "-" else ""), int, frac. rewrite E.
    repeat split; auto. destruct s; auto.
Qed.

End FixedFacts.

(** ** Rounding of a product *)

Module RoundFacts.
Import Num.

Lemma digits2_size (p : positive) : digits2_pos p = Pos.size p.
Proof. induction p; simpl; congruence. Qed.

(** A positive mantissa lies below two to the number of its bits. *)
Lemma digits2_gt (p : positive) : Z.pos p < 2 ^ Z.pos (digits2_pos p).
Proof.
  rewrite digits2_size. pose proof (Pos.size_gt p) as H.
  apply Pos2Z.pos_lt_pos in H. now rewrite Pos2Z.inj_pow in H.
Qed.

(** A mantissa below [2^k] has at most [k] bits. *)
Lemma digits2_le (p : positive) (k : Z) :
  0 <= k -> Z.pos p < 2 ^ k -> Z.pos (digits2_pos p) <= k.
Proof.
  intros Hk H. rewrite digits2_size. pose proof (Pos.size_le p) as L.
  apply Pos2Z.pos_le_pos in L. rewrite Pos2Z.inj_pow in L.
  change (Z.pos p~0) with (2 * Z.pos p) in L.
  destruct (Z.le_gt_cases (Z.pos (Pos.size p)) k) as [|G]; [assumption|].
  assert (2 ^ (k + 1) <= 2 ^ Z.pos (Pos.size p))
    by (apply Z.pow_le_mono_r; lia).
  rewrite Z.pow_add_r in * by lia. lia.
Qed.

Lemma shr_1_m (mrs : shr_record) :
  0 <= shr_m mrs -> shr_m (shr_1 mrs) = shr_m mrs / 2.
Proof.
  destruct mrs as [m r s]. cbn [shr_m]. intros H. rewrite <- Z.div2_div.
  destruct m as [|[p|p|]|p]; try reflexivity; lia.
Qed.

Lemma pow2_xO (p : positive) : 2 ^ Z.pos p~0 = 2 ^ Z.pos p * 2 ^ Z.pos p.
Proof.
  rewrite <- Z.pow_add_r by lia. f_equal. lia.
Qed.

Lemma pow2_xI (p : positive) : 2 ^ Z.pos p~1 = 2 * (2 ^ Z.pos p * 2 ^ Z.pos p).
Proof.
  rewrite <- Z.pow_add_r by lia. rewrite <- Z.pow_succ_r by lia. f_equal. lia.
Qed.

Lemma iter_shr_1_m (p : positive) (mrs : shr_record) :
  0 <= shr_m mrs ->
  shr_m (SpecFloat.iter_pos shr_1 p mrs) = shr_m mrs / 2 ^ Z.pos p.
Proof.
  revert mrs. induction p as [p IH|p IH|]; intros mrs H; cbn [SpecFloat.iter_pos].
  - assert (H1 : 0 <= shr_m (shr_1 mrs))
      by (rewrite shr_1_m by assumption; apply Z.div_pos; lia).
    assert (H2 : 0 <= shr_m (SpecFloat.iter_pos shr_1 p (shr_1 mrs)))
      by (rewrite IH by assumption; apply Z.div_pos; lia).
    rewrite IH, IH, shr_1_m by assumption.
    rewrite !Z.div_div by lia. now rewrite pow2_xI.
  - assert (H2 : 0 <= shr_m (SpecFloat.iter_pos shr_1 p mrs))
      by (rewrite IH by assumption; apply Z.div_pos; lia).
    rewrite IH, IH by assumption. rewrite Z.div_div by lia.
    now rewrite pow2_xO.
  - now apply shr_1_m.
Qed.

(** One shift step: the mantissa is divided, rounding down, by the power
    of two that the exponent gains. *)
Lemma shr_m_e (mrs : shr_record) (e n : Z) :
  0 <= shr_m mrs ->
  let '(mrs', e') := shr mrs e n in
  (0 < n -> shr_m mrs' = shr_m mrs / 2 ^ n /\ e' = e + n) /\
  (n <= 0 -> shr_m mrs' = shr_m mrs /\ e' = e).
Proof.
  intros H. destruct n as [|p|p]; cbn [shr].
  - split; intros; [lia|auto].
  - split; intros; [|lia]. split; [now apply iter_shr_1_m|reflexivity].
  - split; intros; [lia|auto].
Qed.

Lemma round_nearest_even_bounds (m : Z) (l : location) :
  m <= round_nearest_even m l <= m + 1.
Proof.
  destruct l as [|[]]; cbn [round_nearest_even]; try lia.
  destruct (Z.even m); lia.
Qed.

Lemma Zdigits2_le (m k : Z) :
  0 <= k -> 0 <= m < 2 ^ k -> 0 <= Zdigits2 m <= k.
Proof.
  intros Hk [H0 H]. destruct m as [|p|p]; cbn [Zdigits2]; [lia| |lia].
  split; [lia|]. now apply digits2_le.
Qed.

Lemma fexp_eq (x : Z) : fexp prec emax x = Z.max (x - 53) (-1074).
Proof. reflexivity. Qed.

(** Rounding a product of small magnitude gives a finite number of small
    magnitude: mantissa at most [2^53], exponent at most [-44]. *)
Lemma round_aux_small (sx : bool) (mx : positive) (ex : Z) :
  Z.pos mx < 2 ^ 106 -> ex <= -98 ->
  in_fixed_range (binary_round_aux prec emax sx (Z.pos mx) ex loc_Exact) = true.
Proof.
  intros Hmx Hex. unfold binary_round_aux, shr_fexp.
  (* first shift *)
  pose proof (digits2_gt mx) as Hd.
  pose proof (digits2_le mx 106 ltac:(lia) Hmx) as Hd106.
  cbn [Zdigits2]. set (d := Z.pos (digits2_pos mx)) in *.
  rewrite fexp_eq.
  pose proof (shr_m_e (shr_record_of_loc (Z.pos mx) loc_Exact) ex
                (Z.max (d + ex - 53) (-1074) - ex)) as S1.
  cbn [shr_record_of_loc shr_m] in S1. specialize (S1 ltac:(lia)).
  destruct (shr _ ex _) as [mrs1 e1]. destruct S1 as [Sp Sn].
  assert (B1 : 0 <= shr_m mrs1 < 2 ^ 53 /\ e1 <= -45).
  { destruct (Z.lt_ge_cases 0 (Z.max (d + ex - 53) (-1074) - ex)) as [G|G].
    - destruct (Sp G) as [-> ->]. split; [split|lia].
      + apply Z.div_pos; lia.
      + apply Z.div_lt_upper_bound; [lia|].
        rewrite <- Z.pow_add_r by lia.
        apply Z.lt_le_trans with (1 := Hd). apply Z.pow_le_mono_r; lia.
    - destruct (Sn G) as [-> ->]. split; [split|lia]; [lia|].
      apply Z.lt_le_trans with (1 := Hd). apply Z.pow_le_mono_r; lia. }
  destruct B1 as [Bm1 Be1].
  (* rounding *)
  pose proof (round_nearest_even_bounds (shr_m mrs1) (loc_of_shr_record mrs1))
    as R.
  set (mr := round_nearest_even (shr_m mrs1) (loc_of_shr_record mrs1)) in *.
  assert (Bmr : 0 <= mr < 2 ^ 54).
  { change (2 ^ 54) with (2 * 2 ^ 53). lia. }
  (* second shift *)
  pose proof (Zdigits2_le mr 54 ltac:(lia) Bmr) as Hd2.
  rewrite fexp_eq.
  pose proof (shr_m_e (shr_record_of_loc mr loc_Exact) e1
                (Z.max (Zdigits2 mr + e1 - 53) (-1074) - e1)) as S2.
  cbn [shr_record_of_loc shr_m] in S2. specialize (S2 ltac:(lia)).
  destruct (shr _ e1 _) as [mrs2 e2]. destruct S2 as [Sp2 Sn2].
  assert (B2 : 0 <= shr_m mrs2 <= 2 ^ 53 /\ e2 <= -44).
  { destruct (Z.lt_ge_cases 0 (Z.max (Zdigits2 mr + e1 - 53) (-1074) - e1))
      as [G|G].
    - destruct (Sp2 G) as [-> ->]. split; [split|lia].
      + apply Z.div_pos; lia.
      + apply Z.le_trans with mr; [|lia].
        apply Z.div_le_upper_bound; [lia|].
        assert (1 <= 2 ^ (Z.max (Zdigits2 mr + e1 - 53) (-1074) - e1))
          by (apply (Z.pow_le_mono_r 2 0); lia).
        nia.
    - destruct (Sn2 G) as [-> ->]. lia. }
  destruct B2 as [Bm2 Be2].
  destruct (shr_m mrs2) as [|m|m]; [reflexivity| |lia].
  replace (e2 <=? emax - prec) with true by (symmetry; apply Z.leb_le; unfold emax, prec; lia).
  cbn [in_fixed_range]. apply negb_true_iff. unfold at_least_1e21.
  replace (0 <=? e2) with false by (symmetry; apply Z.leb_gt; lia).
  apply Z.leb_gt.
  assert (2 ^ 44 <= 2 ^ (- e2)) by (apply Z.pow_le_mono_r; lia).
  apply Z.le_lt_trans with (1 := proj2 Bm2).
  apply Z.lt_le_trans with (10 ^ 21 * 2 ^ 44); [reflexivity|].
  apply Z.mul_le_mono_nonneg_l; [discriminate|assumption].
Qed.

(** The percentage of a confidence is in the fixed range of [toFixed]. *)
Lemma percent_in_fixed_range (c : number) :
  in_unit_interval c = true -> in_fixed_range (mul c lit_100) = true.
Proof.
  unfold in_unit_interval. rewrite !andb_true_iff. intros [[Hv H0] H1].
  destruct c as [s|s| |s m e].
  - reflexivity.
  - destruct s; discriminate.
  - discriminate.
  - destruct s; [discriminate|].
    unfold mul, lit_100. cbn [SFmul xorb].
    apply round_aux_small.
    + (* the mantissa is below 2^53 *)
      unfold is_double in Hv. cbn [valid_binary] in Hv.
      unfold bounded, canonical_mantissa in Hv.
      apply andb_true_iff in Hv as [Hc _]. apply Z.eqb_eq in Hc.
      rewrite fexp_eq in Hc.
      pose proof (digits2_gt m) as Hd.
      assert (Z.pos m < 2 ^ 53).
      { apply Z.lt_le_trans with (1 := Hd). apply Z.pow_le_mono_r; lia. }
      rewrite Pos2Z.inj_mul.
      change (2 ^ 106) with (2 ^ 53 * 2 ^ 53).
      assert (Z.pos 7036874417766400 < 2 ^ 53) by reflexivity.
      nia.
    + (* the exponent is at most -52 *)
      unfold le, lit_1, SFleb in H1. cbn [SFcompare] in H1.
      destruct (Z.compare_spec e (-52)); lia || discriminate.
Qed.

End RoundFacts.

(** ** The rendered tree *)

Module TreeFacts.

Lemma has_class_single (cls c : string) :
  has_class cls [("className", Attr (PStr c))] = String.eqb c cls.
Proof.
  unfold has_class. cbn [existsb]. rewrite String.eqb_refl.
  cbn [andb]. apply orb_false_r.
Qed.

Lemma by_class_el (cls tag c : string) (ch : list node) :
  by_class cls (el tag c ch) =
    (if String.eqb c cls then [el tag c ch] else [])
      ++ flat_map (by_class cls) ch.
Proof. unfold el. cbn [by_class]. now rewrite has_class_single. Qed.

Lemma by_class_number_child (cls : string) (v : option number) :
  by_class cls (number_child v) = [].
Proof. now destruct v. Qed.

Lemma by_class_toFixed_child (cls : string) (v : option number) (f : nat) :
  by_class cls (toFixed_child v f) = [].
Proof. now destruct v. Qed.

Lemma by_class_explanation_item (cls : string) (i : nat) (e : string * number) :
  by_class cls (explanation_item i e) =
    if String.eqb "explanation-item" cls then [explanation_item i e] else [].
Proof.
  destruct e as [f x]. unfold explanation_item. cbn [by_class has_class existsb].
  rewrite String.eqb_refl.
  change (String.eqb "key" "className") with false. cbn [andb orb flat_map app].
  rewrite orb_false_r. now rewrite app_nil_r.
Qed.

Lemma flat_map_by_class_items (cls : string) (xs : list (string * number)) :
  flat_map (by_class cls) (imap explanation_item xs) =
    if String.eqb "explanation-item" cls then imap explanation_item xs else [].
Proof.
  generalize explanation_item, by_class_explanation_item. intros f Hf.
  revert f Hf. induction xs as [|x xs IH]; intros f Hf; cbn [imap flat_map].
  - now destruct (String.eqb _ _).
  - rewrite Hf, (IH (f ∘ S)) by (intros; apply Hf).
    now destruct (String.eqb _ _).
Qed.

(** The items show the explanations in order, impact through
    [toFixed(4)]. *)
Lemma explanations_shown (xs : list (string * number)) :
  map explanation_shown (imap explanation_item xs) =
    map (fun e => Some (fst e, Num.toFixed (snd e) 4)) xs.
Proof.
  assert (G : forall i x, explanation_shown (explanation_item i x)
                          = Some (fst x, Num.toFixed (snd x) 4))
    by (now intros i [f x]).
  revert G. generalize explanation_item. intros f G.
  revert f G. induction xs as [|x xs IH]; intros f G; [reflexivity|].
  cbn [imap map]. rewrite G. f_equal. apply IH. intros; apply G.
Qed.

(** The three results of [features_stats]. *)
Lemma features_stats_none (r : AnalysisResult) :
  features r = None -> features_stats r = Normal (Prim PUndefined).
Proof. unfold features_stats. now intros ->. Qed.

Lemma features_stats_some (r : AnalysisResult) (m : gmap string number) :
  features r = Some m ->
  features_stats r =
    Normal (stats_fragment (m !! "Sent tnx") (m !! "Received Tnx")
              (m !! "total Ether sent") (m !! "total ether received")
              (m !! "total ether balance")).
Proof. unfold features_stats. now intros ->. Qed.

(** The three results of [explanations_section]. *)
Lemma explanations_section_none (r : AnalysisResult) :
  explanations r = None -> explanations_section r = Normal (Prim PUndefined).
Proof. unfold explanations_section. now intros ->. Qed.

Lemma explanations_section_nil (r : AnalysisResult) :
  explanations r = Some [] ->
  explanations_section r = Normal (Prim (PBool false)).
Proof. unfold explanations_section. now intros ->. Qed.

Lemma explanations_section_items (r : AnalysisResult) (xs : list (string * number)) :
  explanations r = Some xs -> xs <> [] ->
  explanations_section r =
    Normal (explanations_block (imap explanation_item xs)).
Proof.
  unfold explanations_section. intros -> H.
  destruct xs as [|x xs]; [contradiction|]. reflexivity.
Qed.

(** Rendering never throws: both optional sections are guarded. *)
Lemma features_stats_normal (r : AnalysisResult) :
  exists st, features_stats r = Normal st.
Proof.
  destruct (features r) as [m|] eqn:E.
  - rewrite (features_stats_some r m E). eauto.
  - rewrite (features_stats_none r E). eauto.
Qed.

Lemma explanations_section_normal (r : AnalysisResult) :
  exists e, explanations_section r = Normal e.
Proof.
  destruct (explanations r) as [[|x xs]|] eqn:E.
  - rewrite (explanations_section_nil r E). eauto.
  - rewrite (explanations_section_items r _ E); [eauto|discriminate].
  - rewrite (explanations_section_none r E). eauto.
Qed.

Lemma App_result (s : State) (r : AnalysisResult) (st e : node) :
  st_result s = Some r ->
  features_stats r = Normal st -> explanations_section r = Normal e ->
  App s = Normal (page s (results_tree r st e)).
Proof.
  intros Hr Hs He. unfold App, results_section. rewrite Hr.
  cbn [mbind completion_bind]. rewrite Hs. cbn [mbind completion_bind].
  now rewrite He.
Qed.

Lemma App_normal (s : State) : exists t, App s = Normal t.
Proof.
  destruct (st_result s) as [r|] eqn:Hr.
  - destruct (features_stats_normal r) as [st Hs].
    destruct (explanations_section_normal r) as [e He].
    rewrite (App_result s r st e Hr Hs He). eauto.
  - unfold App, results_section. rewrite Hr. eauto.
Qed.

(** The sections hold no element of the other classes. *)
Lemma by_class_stats (r : AnalysisResult) (st : node) (cls : string) :
  features_stats r = Normal st ->
  String.eqb "stat-item" cls = false ->
  String.eqb "stat-label" cls = false ->
  String.eqb "stat-value" cls = false ->
  by_class cls st = [].
Proof.
  intros Hs H1 H2 H3. destruct (features r) as [m|] eqn:E.
  - rewrite (features_stats_some r m E) in Hs. injection Hs as <-.
    unfold stats_fragment, stat_item. cbn [by_class flat_map].
    repeat (rewrite !by_class_el; cbn [flat_map]).
    rewrite H1, H2, H3. cbn [app by_class text].
    now rewrite !by_class_number_child, !by_class_toFixed_child.
  - rewrite (features_stats_none r E) in Hs. now injection Hs as <-.
Qed.

Lemma by_class_explanations (r : AnalysisResult) (e : node) (cls : string) :
  explanations_section r = Normal e ->
  String.eqb "explanations" cls = false ->
  String.eqb "explanation-list" cls = false ->
  String.eqb "explanation-item" cls = false ->
  by_class cls e = [].
Proof.
  intros He H1 H2 H3. destruct (explanations r) as [xs|] eqn:E.
  - assert (Hxs : xs = [] \/ xs <> []) by (destruct xs; [left|right]; congruence).
    destruct Hxs as [->|Hxs].
    + rewrite (explanations_section_nil r E) in He. now injection He as <-.
    + rewrite (explanations_section_items r _ E Hxs) in He.
      assert (e = explanations_block (imap explanation_item xs)) as ->
        by congruence.
      unfold explanations_block.
      rewrite !by_class_el, H1. cbn [flat_map app by_class text].
      rewrite !by_class_el, H2. cbn [flat_map app by_class].
      now rewrite flat_map_by_class_items, H3.
  - rewrite (explanations_section_none r E) in He. now injection He as <-.
Qed.

End TreeFacts.

(** The first render shows neither an error nor results. *)
Example initial_page :
  rendered (fun t => (by_class "error-message" t, by_class "results-section" t))
    initial = Normal ([], []).
Proof. reflexivity. Qed.

Ltac in_list := cbn [In]; repeat (first [left; reflexivity | right]).

Ltac tree_simpl :=
  cbn [by_class flat_map has_class existsb app String.eqb Ascii.eqb Bool.eqb
       andb orb page results_tree risk_assessment input_section stat_item
       explanations_block stats_fragment el text children_of fst snd
       List.map List.find].

Module PageFacts.
Import TreeFacts.

(** The classes that occur outside the two optional sections. *)
Lemma by_class_page (s : State) (r : AnalysisResult) (st e : node) (cls : string) :
  In cls ["risk-badge"; "confidence"; "stat-item";
          "explanations"; "explanation-list"; "explanation-item"] ->
  by_class cls (page s (results_tree r st e)) =
    by_class cls (risk_assessment r)
      ++ (if String.eqb cls "stat-item"
          then [stat_item "Total Transactions:"
                  [Prim (PNum (transaction_count r))]]
          else [])
      ++ by_class cls st ++ by_class cls e.
Proof.
  intros Hc. unfold page, error_message.
  repeat (destruct Hc as [<-|Hc]); [..|contradiction];
    destruct (Str.truthy (st_error s)); tree_simpl;
    now rewrite ?app_nil_r.
Qed.

Lemma stats_of_fragment (a b c d f : option number) :
  stats_of (stats_fragment a b c d f) =
    [ ([text "Sent Transactions:"], [number_child a]);
      ([text "Received Transactions:"], [number_child b]);
      ([text "Total ETH Sent:"], [toFixed_child c 4; text " ETH"]);
      ([text "Total ETH Received:"],
       [toFixed_child d 4; text " "; text "ETH"]);
      ([text "ETH Balance:"], [toFixed_child f 4; text " ETH"]) ].
Proof.
  unfold stats_of.
  repeat (progress (tree_simpl;
                    rewrite ?by_class_number_child, ?by_class_toFixed_child)).
  reflexivity.
Qed.

(** The stat items of the page: the total, then those of the features
    section. *)
Lemma stats_of_page (s : State) (r : AnalysisResult) (st e : node) :
  explanations_section r = Normal e ->
  stats_of (page s (results_tree r st e)) =
    ([text "Total Transactions:"], [Prim (PNum (transaction_count r))])
      :: stats_of st.
Proof.
  intros He. unfold stats_of.
  rewrite (by_class_page s r st e "stat-item") by in_list.
  rewrite (by_class_explanations r e "stat-item" He) by reflexivity.
  tree_simpl. now rewrite app_nil_r.
Qed.

End PageFacts.

(** ** The presenter *)

(** C10. Whenever a result is rendered whose verdict is not the string
    "flagged", the badge reads "NOT FLAGGED", on the colour of that
    verdict; for an unrecognised verdict that is the neutral colour. *)
Theorem badge_reads_not_flagged (s : State) (r : AnalysisResult) (t : node) :
  st_result s = Some r ->
  App s = Normal t ->
  verdict r <> "flagged" ->
  by_class "risk-badge" t =
    [ Elem "div"
        [ ("className", Attr (PStr "risk-badge"));
          ("style", Style [("backgroundColor", getRiskColor (verdict r))]) ]
        [ text "NOT FLAGGED" ] ] /\
  (verdict r <> "not flagged" -> getRiskColor (verdict r) = "#ffaa44").
Proof.
  intros Hr HA Hv.
  destruct (TreeFacts.features_stats_normal r) as [st Hs].
  destruct (TreeFacts.explanations_section_normal r) as [e He].
  rewrite (TreeFacts.App_result s r st e Hr Hs He) in HA.
  assert (t = page s (results_tree r st e)) as -> by congruence.
  apply String.eqb_neq in Hv. split.
  - rewrite (PageFacts.by_class_page s r st e "risk-badge") by in_list.
    rewrite (TreeFacts.by_class_stats r st "risk-badge" Hs) by reflexivity.
    rewrite (TreeFacts.by_class_explanations r e "risk-badge" He) by reflexivity.
    tree_simpl. now rewrite Hv.
  - intros Hn. apply String.eqb_neq in Hn. unfold getRiskColor.
    now rewrite Hv, Hn.
Qed.

Lemma badge_reads_not_flagged_sample :
  by_class "risk-badge"
    (page (typed_after "" (Some bare_result))
       (results_tree bare_result
          (stats_fragment None None None None None) (Prim (PBool false)))) =
    [ Elem "div"
        [ ("className", Attr (PStr "risk-badge"));
          ("style", Style [("backgroundColor", getRiskColor "suspicious")]) ]
        [ text "NOT FLAGGED" ] ] /\
  getRiskColor "suspicious" = "#ffaa44".
Proof.
  split.
  - apply (badge_reads_not_flagged
             (typed_after "" (Some bare_result)) bare_result).
    + reflexivity.
    + reflexivity.
    + discriminate.
  - apply (badge_reads_not_flagged
             (typed_after "" (Some bare_result)) bare_result
             (page (typed_after "" (Some bare_result))
                (results_tree bare_result
                   (stats_fragment None None None None None)
                   (Prim (PBool false))))).
    + reflexivity.
    + reflexivity.
    + discriminate.
    + discriminate.
Defined.

(** C5, as stated, fails on the transaction counts: the sent count of
    [sample_result] is shown as the number 5 itself, not as the string
    "5.0000" that four decimal digits would give.  It also fails on an
    amount of 10^21, which [toFixed(4)] prints in exponential notation. *)
Lemma sent_count_is_unformatted :
  rendered (stat_value "Sent Transactions:")
    (typed_after "" (Some sample_result))
    = Normal (Some [Prim (PNum (Num.of_Z 5))]) /\
  rendered (stat_value "Sent Transactions:")
    (typed_after "" (Some sample_result))
    <> Normal (Some [text (Num.toFixed (Num.of_Z 5) 4)]) /\
  Num.toFixed (Num.of_Z 5) 4 = "5.0000" /\
  rendered (stat_value "Total ETH Sent:") (typed_after "" (Some huge_result))
    = Normal (Some [text "1e+21"; text " ETH"]).
Proof.
  assert (E : rendered (stat_value "Sent Transactions:")
                (typed_after "" (Some sample_result))
              = Normal (Some [Prim (PNum (Num.of_Z 5))]))
    by (vm_compute; reflexivity).
  split; [exact E|]. split; [|split; vm_compute; reflexivity].
  rewrite E. discriminate.
Qed.

(** An amount of 10^21 or more leaves fixed notation: [toFixed] falls
    back to the exponential form of [Number::toString]. *)
Lemma huge_amount_is_exponential :
  Num.toFixed (Num.of_Z (10 ^ 21)) 4 = "1e+21" /\
  Num.in_fixed_range (Num.of_Z (10 ^ 21)) = false.
Proof. split; vm_compute; reflexivity. Qed.

(** C5, amended.  Rendering a result never throws, whether or not the
    features mapping or any of its keys is present.  The confidence is
    shown as [confidence * 100] through [toFixed(1)], followed by a
    percent sign: one fraction digit for every confidence between 0 and
    1.  With a features mapping, the three ether amounts are
    shown through [toFixed(4)] (four fraction digits in the fixed range,
    nothing when the key is missing), while the sent and received
    transaction counts are shown as the numbers they are, unformatted. *)
Theorem presenter_formats (s : State) (r : AnalysisResult) :
  st_result s = Some r ->
  exists t, App s = Normal t /\
    by_class "confidence" t =
      [ el "div" "confidence"
          [ text "Confidence:"; text " ";
            Elem "strong" []
              [ text (Num.toFixed (Num.mul (confidence r) Num.lit_100) 1);
                text "%" ] ] ] /\
    (Num.in_unit_interval (confidence r) = true ->
     Num.fixed_notation 1
       (Num.toFixed (Num.mul (confidence r) Num.lit_100) 1)) /\
    (forall m, features r = Some m ->
       exists sent received ether_sent ether_received ether_balance,
         stat_value "Sent Transactions:" t = Some [sent] /\
         shows_raw (m !! "Sent tnx") sent /\
         stat_value "Received Transactions:" t = Some [received] /\
         shows_raw (m !! "Received Tnx") received /\
         stat_value "Total ETH Sent:" t = Some [ether_sent; text " ETH"] /\
         shows_fixed 4 (m !! "total Ether sent") ether_sent /\
         stat_value "Total ETH Received:" t
           = Some [ether_received; text " "; text "ETH"] /\
         shows_fixed 4 (m !! "total ether received") ether_received /\
         stat_value "ETH Balance:" t = Some [ether_balance; text " ETH"] /\
         shows_fixed 4 (m !! "total ether balance") ether_balance) /\
    (features r = None ->
       stats_of t =
         [([text "Total Transactions:"], [Prim (PNum (transaction_count r))])]).
Proof.
  intros Hr.
  destruct (TreeFacts.features_stats_normal r) as [st Hs].
  destruct (TreeFacts.explanations_section_normal r) as [e He].
  exists (page s (results_tree r st e)).
  split; [exact (TreeFacts.App_result s r st e Hr Hs He)|].
  split; [|split; [|split]].
  - rewrite (PageFacts.by_class_page s r st e "confidence") by in_list.
    rewrite (TreeFacts.by_class_stats r st "confidence" Hs) by reflexivity.
    rewrite (TreeFacts.by_class_explanations r e "confidence" He) by reflexivity.
    reflexivity.
  - intros Hc. apply FixedFacts.toFixed_fixed_notation.
    now apply RoundFacts.percent_in_fixed_range.
  - intros m Hm. rewrite (TreeFacts.features_stats_some r m Hm) in Hs.
    assert (st = stats_fragment (m !! "Sent tnx") (m !! "Received Tnx")
                   (m !! "total Ether sent") (m !! "total ether received")
                   (m !! "total ether balance")) as -> by congruence.
    exists (number_child (m !! "Sent tnx")),
           (number_child (m !! "Received Tnx")),
           (toFixed_child (m !! "total Ether sent") 4),
           (toFixed_child (m !! "total ether received") 4),
           (toFixed_child (m !! "total ether balance") 4).
    unfold stat_value.
    rewrite (PageFacts.stats_of_page s r _ e He), PageFacts.stats_of_fragment.
    assert (Hraw : forall v, shows_raw v (number_child v)) by (now intros []).
    assert (Hfix : forall v, shows_fixed 4 v (toFixed_child v 4)).
    { intros [x|]; [|reflexivity]. split; [reflexivity|].
      apply FixedFacts.toFixed_fixed_notation. }
    repeat split; auto; apply Hfix.
  - intros Hn. rewrite (TreeFacts.features_stats_none r Hn) in Hs.
    assert (st = Prim PUndefined) as -> by congruence.
    now rewrite (PageFacts.stats_of_page s r _ e He).
Qed.

Lemma presenter_formats_sample :
  exists t, App (typed_after "" (Some sample_result)) = Normal t /\
    by_class "confidence" t =
      [ el "div" "confidence"
          [ text "Confidence:"; text " ";
            Elem "strong" []
              [ text (Num.toFixed
                        (Num.mul (confidence sample_result) Num.lit_100) 1);
                text "%" ] ] ] /\
    Num.fixed_notation 1
      (Num.toFixed (Num.mul (confidence sample_result) Num.lit_100) 1) /\
    Num.toFixed (Num.mul (confidence sample_result) Num.lit_100) 1 = "80.0".
Proof.
  destruct (presenter_formats (typed_after "" (Some sample_result))
              sample_result eq_refl) as (t & HA & Hc & Hf & _).
  exists t. split; [exact HA|]. split; [exact Hc|].
  split; [apply Hf; reflexivity|reflexivity].
Defined.

(** C6, as stated, fails on an empty features mapping: the section is
    rendered, five stat items without a number in them, after the total.  It
    also fails on an impact of 10^21, which [toFixed(4)] prints in
    exponential notation. *)
Lemma empty_features_are_rendered :
  rendered (fun t => List.length (by_class "stat-item" t))
    (typed_after "" (Some bare_result)) = Normal 6%nat /\
  rendered (stat_value "Sent Transactions:")
    (typed_after "" (Some bare_result)) = Normal (Some [Prim PUndefined]) /\
  rendered (stat_value "ETH Balance:")
    (typed_after "" (Some bare_result))
    = Normal (Some [Prim PUndefined; text " ETH"]) /\
  rendered (fun t => map explanation_shown (by_class "explanation-item" t))
    (typed_after "" (Some huge_result)) = Normal [Some ("volume", "1e+21")].
Proof. repeat split; vm_compute; reflexivity. Qed.

(** C6, amended.  The features section is left out when the features
    mapping is absent: the total is then the only stat item.  Whenever
    the mapping is present, empty or not, its five stat items follow the
    total: the two counts show their number as it is, the three ether
    amounts show theirs through [toFixed(4)] before the unit ETH, and
    where a key is missing the number is left out, so that a count item
    is empty and an ether item holds the unit only.  The explanations
    section is left out when the explanations are absent or empty;
    otherwise it holds one list with one item per explanation, in the
    order given, each showing the feature name and the impact through
    [toFixed(4)]: four fraction digits whenever the impact is in the
    fixed range. *)
Theorem optional_sections (s : State) (r : AnalysisResult) :
  st_result s = Some r ->
  exists t, App s = Normal t /\
    (features r = None ->
       stats_of t =
         [([text "Total Transactions:"], [Prim (PNum (transaction_count r))])]) /\
    (forall m, features r = Some m ->
       exists sent received ether_sent ether_received ether_balance,
         stats_of t =
           [ ([text "Total Transactions:"],
              [Prim (PNum (transaction_count r))]);
             ([text "Sent Transactions:"], [sent]);
             ([text "Received Transactions:"], [received]);
             ([text "Total ETH Sent:"], [ether_sent; text " ETH"]);
             ([text "Total ETH Received:"],
              [ether_received; text " "; text "ETH"]);
             ([text "ETH Balance:"], [ether_balance; text " ETH"]) ] /\
         shows_raw (m !! "Sent tnx") sent /\
         shows_raw (m !! "Received Tnx") received /\
         shows_fixed 4 (m !! "total Ether sent") ether_sent /\
         shows_fixed 4 (m !! "total ether received") ether_received /\
         shows_fixed 4 (m !! "total ether balance") ether_balance) /\
    (explanations r = None \/ explanations r = Some [] ->
       by_class "explanations" t = [] /\
       by_class "explanation-list" t = [] /\
       by_class "explanation-item" t = []) /\
    (forall xs, explanations r = Some xs -> xs <> [] ->
       by_class "explanations" t
         = [explanations_block (by_class "explanation-item" t)] /\
       map explanation_shown (by_class "explanation-item" t)
         = map (fun e => Some (fst e, Num.toFixed (snd e) 4)) xs /\
       (forall e, In e xs -> Num.in_fixed_range (snd e) = true ->
          Num.fixed_notation 4 (Num.toFixed (snd e) 4))).
Proof.
  intros Hr.
  destruct (TreeFacts.features_stats_normal r) as [st Hs].
  destruct (TreeFacts.explanations_section_normal r) as [e He].
  exists (page s (results_tree r st e)).
  split; [exact (TreeFacts.App_result s r st e Hr Hs He)|].
  rewrite (PageFacts.stats_of_page s r st e He).
  rewrite !(PageFacts.by_class_page s r st e "explanations") by in_list.
  rewrite !(PageFacts.by_class_page s r st e "explanation-list") by in_list.
  rewrite !(PageFacts.by_class_page s r st e "explanation-item") by in_list.
  rewrite (TreeFacts.by_class_stats r st "explanations" Hs) by reflexivity.
  rewrite (TreeFacts.by_class_stats r st "explanation-list" Hs) by reflexivity.
  rewrite (TreeFacts.by_class_stats r st "explanation-item" Hs) by reflexivity.
  tree_simpl.
  split; [|split; [|split]].
  - intros Hn. rewrite (TreeFacts.features_stats_none r Hn) in Hs.
    now assert (st = Prim PUndefined) as -> by congruence.
  - intros m Hm. rewrite (TreeFacts.features_stats_some r m Hm) in Hs.
    assert (st = stats_fragment (m !! "Sent tnx") (m !! "Received Tnx")
                   (m !! "total Ether sent") (m !! "total ether received")
                   (m !! "total ether balance")) as -> by congruence.
    exists (number_child (m !! "Sent tnx")),
           (number_child (m !! "Received Tnx")),
           (toFixed_child (m !! "total Ether sent") 4),
           (toFixed_child (m !! "total ether received") 4),
           (toFixed_child (m !! "total ether balance") 4).
    rewrite PageFacts.stats_of_fragment.
    assert (Hraw : forall v, shows_raw v (number_child v)) by (now intros []).
    assert (Hfix : forall v, shows_fixed 4 v (toFixed_child v 4)).
    { intros [x|]; [|reflexivity]. split; [reflexivity|].
      apply FixedFacts.toFixed_fixed_notation. }
    repeat split; auto; apply Hfix.
  - intros [Hn|Hn].
    + rewrite (TreeFacts.explanations_section_none r Hn) in He.
      now assert (e = Prim PUndefined) as -> by congruence.
    + rewrite (TreeFacts.explanations_section_nil r Hn) in He.
      now assert (e = Prim (PBool false)) as -> by congruence.
  - intros xs Hx Hne.
    rewrite (TreeFacts.explanations_section_items r xs Hx Hne) in He.
    assert (e = explanations_block (imap explanation_item xs)) as ->
      by congruence.
    assert (Hitems : by_class "explanation-item"
                       (explanations_block (imap explanation_item xs))
                     = imap explanation_item xs).
    { unfold explanations_block.
      rewrite !TreeFacts.by_class_el. cbn [String.eqb Ascii.eqb Bool.eqb andb].
      cbn [flat_map app by_class text has_class existsb].
      rewrite !TreeFacts.by_class_el. cbn [String.eqb Ascii.eqb Bool.eqb andb].
      cbn [flat_map app by_class].
      rewrite TreeFacts.flat_map_by_class_items. now rewrite !app_nil_r. }
    rewrite Hitems. split; [|split].
    + unfold explanations_block at 1.
      rewrite !TreeFacts.by_class_el. cbn [String.eqb Ascii.eqb Bool.eqb andb].
      cbn [flat_map app by_class text has_class existsb].
      rewrite !TreeFacts.by_class_el. cbn [String.eqb Ascii.eqb Bool.eqb andb].
      cbn [flat_map app by_class].
      rewrite TreeFacts.flat_map_by_class_items. reflexivity.
    + apply TreeFacts.explanations_shown.
    + intros x _ Hx'. now apply FixedFacts.toFixed_fixed_notation.
Qed.

Lemma optional_sections_sample :
  (exists t, App (typed_after "" (Some explained_result)) = Normal t /\
     stats_of t =
       [([text "Total Transactions:"], [Prim (PNum (Num.of_Z 12))])] /\
     map explanation_shown (by_class "explanation-item" t)
       = [Some ("age", "0.1234"); Some ("balance", "-0.5678")]) /\
  (exists t, App (typed_after "" (Some bare_result)) = Normal t /\
     stats_of t =
       [ ([text "Total Transactions:"], [Prim (PNum (Num.of_Z 0))]);
         ([text "Sent Transactions:"], [Prim PUndefined]);
         ([text "Received Transactions:"], [Prim PUndefined]);
         ([text "Total ETH Sent:"], [Prim PUndefined; text " ETH"]);
         ([text "Total ETH Received:"],
          [Prim PUndefined; text " "; text "ETH"]);
         ([text "ETH Balance:"], [Prim PUndefined; text " ETH"]) ] /\
     by_class "explanations" t = []).
Proof.
  split.
  - destruct (optional_sections (typed_after "" (Some explained_result))
                explained_result eq_refl) as (t & HA & Hn & _ & _ & Hx).
    exists t. split; [exact HA|]. split; [exact (Hn eq_refl)|].
    destruct (Hx [("age", lit_0_1234); ("balance", lit_m0_5678)] eq_refl)
      as (_ & Hshown & _); [discriminate|].
    rewrite Hshown. reflexivity.
  - destruct (optional_sections (typed_after "" (Some bare_result))
                bare_result eq_refl) as (t & HA & _ & Hm & He & _).
    exists t. split; [exact HA|].
    destruct (Hm ∅ eq_refl)
      as (a & b & c & d & f & Hst & Ha & Hb & Hc & Hd & Hf).
    rewrite !lookup_empty in Ha, Hb, Hc, Hd, Hf.
    cbn [shows_raw shows_fixed] in Ha, Hb, Hc, Hd, Hf. subst a b c d f.
    split; [exact Hst|]. apply He. now right.
Defined.

(** ** The controls of the page *)

Module ControlFacts.
Import TreeFacts.

(** What [results_section] returns. *)
Lemma results_section_inv (o : option AnalysisResult) (res : node) :
  results_section o = Normal res ->
  (o = None /\ res = Prim PNull) \/
  (exists r st e, o = Some r /\ features_stats r = Normal st /\
                  explanations_section r = Normal e /\
                  res = results_tree r st e).
Proof.
  destruct o as [r|]; cbn [results_section].
  - destruct (features_stats_normal r) as [st Hs].
    destruct (explanations_section_normal r) as [e He].
    rewrite Hs. cbn [mbind completion_bind]. rewrite He.
    intros H. right. exists r, st, e.
    split; [reflexivity|]. split; [exact Hs|]. split; [exact He|].
    change (Normal (results_tree r st e) = Normal res) in H. congruence.
  - intros H. left. split; [reflexivity|].
    change (Normal (Prim PNull) = Normal res) in H. congruence.
Qed.

Lemma results_section_normal (o : option AnalysisResult) :
  exists res, results_section o = Normal res.
Proof.
  destruct o as [r|]; [|eexists; reflexivity].
  destruct (features_stats_normal r) as [st Hs].
  destruct (explanations_section_normal r) as [e He].
  exists (results_tree r st e). cbn [results_section].
  rewrite Hs. cbn [mbind completion_bind]. now rewrite He.
Qed.

(** The results hold none of the classes of the page around them. *)
Lemma by_class_results_outer (o : option AnalysisResult) (res : node) (cls : string) :
  In cls ["address-input"; "analyze-btn"; "error-message"] ->
  results_section o = Normal res -> by_class cls res = [].
Proof.
  intros Hc H.
  destruct (results_section_inv o res H)
    as [[_ ->]|(r & st & e & _ & Hs & He & ->)]; [reflexivity|].
  repeat (destruct Hc as [<-|Hc]); [..|contradiction]; tree_simpl;
    rewrite (by_class_stats r st _ Hs), (by_class_explanations r e _ He)
      by reflexivity; reflexivity.
Qed.

Lemma App_page (s : State) (res : node) :
  results_section (st_result s) = Normal res -> App s = Normal (page s res).
Proof. intros H. unfold App. now rewrite H. Qed.

(** The input is disabled exactly while Loading. *)
Lemma can_type_spec (s : State) : can_type s = negb (st_loading s).
Proof.
  unfold can_type, enabled, rendered.
  destruct (results_section_normal (st_result s)) as [res H].
  rewrite (App_page s res H). cbn [mbind completion_bind mret completion_ret].
  pose proof (by_class_results_outer _ res "address-input" ltac:(in_list) H) as E.
  unfold page, error_message. destruct (Str.truthy (st_error s));
    tree_simpl; rewrite E; reflexivity.
Qed.

(** The button is disabled while Loading and on a blank input. *)
Lemma can_click_spec (s : State) :
  can_click s = negb (st_loading s) && Str.truthy (Str.trim (st_address s)).
Proof.
  unfold can_click, enabled, rendered.
  destruct (results_section_normal (st_result s)) as [res H].
  rewrite (App_page s res H). cbn [mbind completion_bind mret completion_ret].
  pose proof (by_class_results_outer _ res "analyze-btn" ltac:(in_list) H) as E.
  unfold page, error_message. destruct (Str.truthy (st_error s));
    tree_simpl; rewrite E; cbn [app is_disabled prop_of props_of];
    cbn; now rewrite negb_orb, negb_involutive.
Qed.

End ControlFacts.

(** ** Sessions *)

Module SessionFacts.

(** Every address takes one of the three ways through the handler. *)
Lemma address_cases (a : string) :
  Str.trim a = "" \/ (Str.trim a <> "" /\ ~ well_formed a) \/ well_formed a.
Proof.
  destruct (string_dec (Str.trim a) "") as [He|He]; [now left|right].
  destruct (Str.startsWith a "0x") eqn:E1;
    [destruct (Z.eq_dec (Str.length a) 42) as [E2|E2]|].
  - right. now split.
  - left. split; [assumption|]. now intros [_ ?].
  - left. split; [assumption|]. intros [? _]. congruence.
Qed.

Lemma submit_well_formed (s : State) (net : outcome) :
  well_formed (st_address s) ->
  submit s net =
    [SetLoading true; SetError ""; SetResult None;
     Fetch (analyze_request (st_address s))]
      ++ completion_events net ++ [SetLoading false].
Proof. intros H. unfold submit. now rewrite (analyzeAddress_well_formed _ net H). Qed.

Lemma submit_malformed (s : State) (net : outcome) :
  Str.trim (st_address s) <> "" -> ~ well_formed (st_address s) ->
  submit s net = [SetError msg_malformed].
Proof.
  intros H1 H2. unfold submit. now rewrite (analyzeAddress_malformed _ net H1 H2).
Qed.

Lemma submit_empty (s : State) (net : outcome) :
  Str.trim (st_address s) = "" -> submit s net = [SetError msg_empty].
Proof. intros H. unfold submit. now rewrite (analyzeAddress_empty _ net H). Qed.

(** The events of an answer contain no request. *)
Lemma requests_completion_events (net : outcome) :
  requests (completion_events net ++ [SetLoading false]) = [].
Proof. destruct net as [|[[data|data|[|]]|ok]]; reflexivity. Qed.

Lemma step_invariant (u u' : ui) :
  ui_step u u' -> session_invariant u -> session_invariant u'.
Proof.
  intros Hstep Hinv. destruct Hstep as [u v Ht|u net Hc|u l1 k l2 Hk].
  - (* typing: only possible when not Loading *)
    rewrite ControlFacts.can_type_spec in Ht. apply negb_true_iff in Ht.
    destruct Hinv as [(Hf & Hl & Hr)|(n & _ & Hl & _)]; [|congruence].
    left. cbn. auto.
  - (* a click: only possible when not Loading, on a non-blank input *)
    rewrite ControlFacts.can_click_spec in Hc.
    apply andb_true_iff in Hc as [Hl Ht]. apply negb_true_iff in Hl.
    apply StrFacts.truthy_true in Ht.
    destruct Hinv as [(Hf & _ & Hr)|(n & _ & Hl' & _)]; [|congruence].
    destruct (address_cases (st_address (shown u))) as [He|[[_ Hm]|Hw]];
      [contradiction| |].
    + rewrite (submit_malformed _ net Ht Hm). left. cbn.
      rewrite Hf. repeat split; auto.
    + rewrite (submit_well_formed _ net Hw). right. exists net.
      cbn [shown in_flight]. rewrite Hf.
      destruct net as [|[[data|data|[|]]|ok]]; cbn; repeat split; auto;
        apply Hw.
  - (* an answer: only possible when a handler is pending *)
    destruct Hinv as [(Hf & _)|(n & Hf & Hl & Hr & He & Hw)].
    + rewrite Hf in Hk. now destruct l1.
    + rewrite Hf in Hk.
      assert (l1 = [] /\ k = completion_events n ++ [SetLoading false] /\ l2 = [])
        as (-> & -> & ->).
      { destruct l1 as [|x [|y l1]]; cbn in Hk; [|now destruct l2|discriminate].
        injection Hk as <- <-. auto. }
      left. cbn [shown in_flight app]. split; [reflexivity|].
      unfold run. rewrite fold_left_app. cbn [fold_left apply_event st_loading].
      split; [reflexivity|].
      destruct n as [|[[data|data|[|]]|ok]]; cbn; rewrite ?Hr, ?He; auto;
        intros; congruence.
Qed.

Lemma reachable_invariant (u : ui) : reachable u -> session_invariant u.
Proof.
  unfold reachable. intros H.
  eapply (rtc_ind_r session_invariant); [| |exact H].
  - left. cbn. repeat split. intros E. now contradiction E.
  - intros y z _ Hstep IH. now apply (step_invariant y z).
Qed.

(** A session that reaches Loading: type the sample address, click. *)
Lemma reach_loading (net : outcome) : reachable (loading_page net).
Proof.
  unfold reachable, loading_page.
  eapply rtc_l; [apply (ui_type _ sample_address); reflexivity|].
  eapply rtc_l; [apply (ui_click _ net); reflexivity|].
  destruct net as [|[[data|data|[|]]|ok]]; apply rtc_refl.
Qed.

(** A session that shows a format error next to an earlier result:
    analyse the sample address, then submit "abc". *)
Lemma reach_stale_result : reachable stale_page.
Proof.
  unfold reachable, stale_page.
  eapply rtc_trans;
    [exact (reach_loading (Resolved (Json (Success sample_result))))|].
  eapply rtc_l; [eapply (ui_answer _ [] _ []); reflexivity|].
  eapply rtc_l; [apply (ui_type _ "abc"); reflexivity|].
  eapply rtc_l; [apply (ui_click _ Rejected); reflexivity|].
  apply rtc_refl.
Qed.

End SessionFacts.

(** X1. At most one request is ever in flight, and the page shows
    Loading exactly while one is. *)
Theorem one_request_in_flight (u : ui) :
  reachable u ->
  (List.length (in_flight u) <= 1)%nat /\
  (st_loading (shown u) = true <-> in_flight u <> []).
Proof.
  intros H. destruct (SessionFacts.reachable_invariant u H)
    as [(Hf & Hl & _)|(net & Hf & Hl & _)]; rewrite Hf, Hl; cbn.
  - split; [lia|]. split; [discriminate|]. intros E. now contradiction E.
  - split; [lia|]. split; [discriminate|reflexivity].
Qed.

Lemma one_request_in_flight_sample :
  (List.length (in_flight (loading_page Rejected)) <= 1)%nat /\
  (st_loading (shown (loading_page Rejected)) = true <->
   in_flight (loading_page Rejected) <> []).
Proof.
  exact (one_request_in_flight (loading_page Rejected)
           (SessionFacts.reach_loading Rejected)).
Defined.

(** X2. While the page shows Loading it shows no result and no error,
    the address in the input is well formed, and neither the input nor
    the button accepts user events. *)
Theorem loading_page_is_locked (u : ui) :
  reachable u ->
  st_loading (shown u) = true ->
  st_result (shown u) = None /\ st_error (shown u) = "" /\
  well_formed (st_address (shown u)) /\
  can_type (shown u) = false /\ can_click (shown u) = false.
Proof.
  intros H Hl. destruct (SessionFacts.reachable_invariant u H)
    as [(_ & Hl' & _)|(net & _ & _ & Hr & He & Hw)]; [congruence|].
  rewrite ControlFacts.can_type_spec, ControlFacts.can_click_spec, Hl.
  auto.
Qed.

Lemma loading_page_is_locked_sample :
  well_formed (st_address (shown (loading_page Rejected))) /\
  can_click (shown (loading_page Rejected)) = false.
Proof.
  destruct (loading_page_is_locked (loading_page Rejected)
              (SessionFacts.reach_loading Rejected)
              eq_refl) as (_ & _ & Hw & _ & Hc).
  exact (conj Hw Hc).
Defined.

(** X3. A result is shown next to an error only when that error is the
    format message of the validator: no error of a request ever stands
    beside a result. *)
Theorem stale_result_only_with_format_error (u : ui) :
  reachable u ->
  st_result (shown u) <> None -> st_error (shown u) <> "" ->
  st_error (shown u) = msg_malformed.
Proof.
  intros H Hr He. destruct (SessionFacts.reachable_invariant u H)
    as [(_ & _ & Hs)|(net & _ & _ & Hn & _)]; [|contradiction].
  destruct (Hs Hr); [contradiction|assumption].
Qed.

Lemma stale_result_only_with_format_error_sample :
  st_error (shown stale_page) = msg_malformed.
Proof.
  apply (stale_result_only_with_format_error stale_page
           SessionFacts.reach_stale_result);
    discriminate.
Defined.

(** X4. Every click that the page allows either sends exactly one
    request, for a well-formed address, or shows the format error and
    sends none: the empty-input guard of the handler cannot fire from
    the page, whose button is disabled on a blank input. *)
Theorem click_never_hits_empty_guard (s : State) (net : outcome) :
  can_click s = true ->
  (well_formed (st_address s) /\
   requests (submit s net) = [analyze_request (st_address s)]) \/
  (~ well_formed (st_address s) /\ submit s net = [SetError msg_malformed]).
Proof.
  rewrite ControlFacts.can_click_spec. intros Hc.
  apply andb_true_iff in Hc as [_ Ht]. apply StrFacts.truthy_true in Ht.
  destruct (SessionFacts.address_cases (st_address s)) as [He|[[_ Hm]|Hw]];
    [contradiction| |].
  - right. split; [assumption|]. now apply SessionFacts.submit_malformed.
  - left. split; [assumption|]. rewrite (SessionFacts.submit_well_formed _ net Hw).
    destruct net as [|[[data|data|[|]]|ok]]; reflexivity.
Qed.

Lemma click_never_hits_empty_guard_sample :
  (well_formed "abc" /\
   requests (submit (typed_after "abc" None) Rejected)
     = [analyze_request "abc"]) \/
  (~ well_formed "abc" /\
   submit (typed_after "abc" None) Rejected = [SetError msg_malformed]).
Proof.
  apply (click_never_hits_empty_guard (typed_after "abc" None) Rejected).
  reflexivity.
Defined.

(** ** The request *)

Module TrimFacts.
Import Str.

Lemma trimEnd_nonblank_head (c : ascii) (s : string) :
  is_white_space c = false -> exists t, trimEnd (String c s) = String c t.
Proof.
  intros H. cbn [trimEnd]. rewrite H. destruct (trimEnd s); eauto.
Qed.

Lemma trimEnd_idempotent (s : string) : trimEnd (trimEnd s) = trimEnd s.
Proof.
  induction s as [|c s IH]; [reflexivity|]. cbn [trimEnd].
  destruct (trimEnd s) as [|d t] eqn:E.
  - destruct (is_white_space c) eqn:W; [reflexivity|].
    cbn [trimEnd]. now rewrite W.
  - change (trimEnd (String c (String d t))) with
      (match trimEnd (String d t) with
       | EmptyString => if is_white_space c then EmptyString
                        else String c EmptyString
       | u => String c u
       end).
    now rewrite IH.
Qed.

Lemma trimStart_head (s : string) :
  trimStart s = "" \/
  exists c t, trimStart s = String c t /\ is_white_space c = false.
Proof.
  induction s as [|c s IH]; [now left|]. cbn [trimStart].
  destruct (is_white_space c) eqn:W; [exact IH|]. right. eauto.
Qed.

(** Trimming twice is trimming once. *)
Lemma trim_idempotent (s : string) : trim (trim s) = trim s.
Proof.
  unfold trim. destruct (trimStart_head s) as [->|(c & t & -> & W)];
    [reflexivity|].
  destruct (trimEnd_nonblank_head c t W) as [u E]. rewrite E.
  cbn [trimStart]. rewrite W. rewrite <- E. apply trimEnd_idempotent.
Qed.

Lemma length_trimEnd (s : string) :
  (String.length (trimEnd s) <= String.length s)%nat.
Proof.
  induction s as [|c s IH]; [reflexivity|]. cbn [trimEnd].
  destruct (trimEnd s); [destruct (is_white_space c)|];
    cbn [String.length] in *; lia.
Qed.

Lemma length_trimStart (s : string) :
  (String.length (trimStart s) <= String.length s)%nat.
Proof.
  induction s as [|c s IH]; [reflexivity|]. cbn [trimStart].
  destruct (is_white_space c); cbn [String.length]; lia.
Qed.

(** Trimming never lengthens. *)
Lemma length_trim (s : string) : length (trim s) <= length s.
Proof.
  unfold length, trim. pose proof (length_trimEnd (trimStart s)).
  pose proof (length_trimStart s). lia.
Qed.

(** The shape of a string that starts with [0x]. *)
Lemma startsWith_0x_inv (s : string) :
  startsWith s "0x" = true -> exists t, s = String "0" (String "x" t).
Proof.
  unfold startsWith. intros H.
  destruct s as [|c [|d t]]; cbn [String.prefix] in H; try discriminate.
  - destruct (ascii_dec "0"%char c); discriminate.
  - destruct (ascii_dec "0"%char c) as [<-|]; [|discriminate].
    destruct (ascii_dec "x"%char d) as [<-|]; [|discriminate]. eauto.
Qed.

(** Trimming a string that starts with [0x] removes trailing white space
    only, and keeps the prefix. *)
Lemma trim_0x (s : string) :
  startsWith s "0x" = true ->
  trim s = trimEnd s /\ startsWith (trim s) "0x" = true.
Proof.
  intros H. destruct (startsWith_0x_inv s H) as [t ->].
  unfold trim. cbn [trimStart].
  change (is_white_space "0"%char) with false. cbv iota.
  split; [reflexivity|].
  destruct (trimEnd_nonblank_head "x"%char t eq_refl) as [u E].
  change (trimEnd (String "0" (String "x" t))) with
    (match trimEnd (String "x" t) with
     | EmptyString => String "0"%char EmptyString
     | v => String "0"%char v
     end).
  rewrite E. unfold startsWith. apply String.prefix_correct.
  destruct u; reflexivity.
Qed.

End TrimFacts.

(** X5. The request of a submission goes by POST to the fixed endpoint
    with a JSON content type.  The address it carries is the input
    without its trailing white space: it starts with [0x], has at most
    42 characters and is not changed by trimming again. *)
Theorem request_shape (s : State) (net : outcome) :
  well_formed (st_address s) ->
  exists req,
    requests (submit s net) = [req] /\
    url req = "http://localhost:5001/api/analyze" /\
    method req = "POST" /\ content_type req = "application/json" /\
    body_address req = Str.trimEnd (st_address s) /\
    Str.startsWith (body_address req) "0x" = true /\
    Str.length (body_address req) <= 42 /\
    Str.trim (body_address req) = body_address req.
Proof.
  intros Hw. exists (analyze_request (st_address s)).
  rewrite (SessionFacts.submit_well_formed s net Hw).
  destruct (TrimFacts.trim_0x _ (proj1 Hw)) as [Ht Hp].
  cbn [analyze_request url method content_type body_address].
  split; [destruct net as [|[[data|data|[|]]|ok]]; reflexivity|].
  repeat split; try assumption.
  - rewrite <- (proj2 Hw). apply TrimFacts.length_trim.
  - apply TrimFacts.trim_idempotent.
Qed.

Lemma request_shape_sample :
  exists req,
    requests (submit (typed_after sample_address None) Rejected) = [req] /\
    body_address req = sample_address.
Proof.
  destruct (request_shape (typed_after sample_address None) Rejected)
    as (req & Hr & _ & _ & _ & Hb & _).
  - split; reflexivity.
  - exists req. split; [exact Hr|]. rewrite Hb. reflexivity.
Defined.

(** ** The outcome on the page *)

Module OutcomeFacts.
Import TreeFacts.

(** No event writes the address cell. *)
Lemma run_address (evs : list event) (s : State) :
  st_address (run s evs) = st_address s.
Proof.
  revert s. induction evs as [|ev evs IH]; intros s; [reflexivity|].
  cbn [run fold_left]. change (fold_left apply_event evs ?x) with (run x evs).
  rewrite IH. now destruct ev.
Qed.

(** An attempt that starts outside Loading ends outside Loading. *)
Lemma submit_ends_loading (s : State) (net : outcome) :
  st_loading s = false -> st_loading (run s (submit s net)) = false.
Proof.
  intros Hl.
  destruct (SessionFacts.address_cases (st_address s)) as [He|[[Ht Hm]|Hw]].
  - now rewrite (SessionFacts.submit_empty s net He).
  - now rewrite (SessionFacts.submit_malformed s net Ht Hm).
  - rewrite (SessionFacts.submit_well_formed s net Hw).
    destruct net as [|[[data|data|[|]]|ok]]; reflexivity.
Qed.

(** The banner and the results on the page, apart from the input. *)
Lemma by_class_page_outer (s : State) (res : node) (cls : string) :
  In cls ["error-message"; "results-section"; "address-info"] ->
  by_class cls (page s res) =
    by_class cls (error_message (st_error s)) ++ by_class cls res.
Proof.
  intros Hc. unfold page.
  repeat (destruct Hc as [<-|Hc]); [..|contradiction]; tree_simpl;
    now rewrite ?app_nil_r.
Qed.

Lemma by_class_banner (msg : string) :
  by_class "error-message" (error_message msg) =
    if Str.truthy msg then [el "div" "error-message" [text msg]] else [].
Proof. unfold error_message. now destruct (Str.truthy msg). Qed.

Lemma by_class_banner_other (msg cls : string) :
  String.eqb "error-message" cls = false ->
  by_class cls (error_message msg) = [].
Proof.
  intros H. unfold error_message. destruct (Str.truthy msg); [|reflexivity].
  rewrite by_class_el, H. reflexivity.
Qed.

(** The results section as a whole, and the address line in it. *)
Lemma by_class_results_tree (r : AnalysisResult) (st e : node) :
  features_stats r = Normal st -> explanations_section r = Normal e ->
  by_class "results-section" (results_tree r st e) = [results_tree r st e] /\
  by_class "address-info" (results_tree r st e) =
    [el "div" "address-info"
       [Elem "strong" [] [text "Address:"]; text " "; text (address r)]] /\
  by_class "error-message" (results_tree r st e) = [].
Proof.
  intros Hs He. repeat split; tree_simpl;
    rewrite (by_class_stats r st _ Hs), (by_class_explanations r e _ He)
      by reflexivity; reflexivity.
Qed.

End OutcomeFacts.

(** X6. After every attempt, completed from a page that was not Loading,
    the typed address is still in the input, the input accepts typing
    and the button is enabled exactly as before: the user can retry
    without retyping. *)
Theorem controls_after_attempt (s : State) (net : outcome) :
  st_loading s = false ->
  st_address (run s (submit s net)) = st_address s /\
  can_type (run s (submit s net)) = true /\
  can_click (run s (submit s net)) = can_click s.
Proof.
  intros Hl. rewrite ControlFacts.can_type_spec, !ControlFacts.can_click_spec.
  rewrite OutcomeFacts.run_address, Hl.
  now rewrite (OutcomeFacts.submit_ends_loading s net Hl).
Qed.

Lemma controls_after_attempt_sample :
  st_address
    (run (typed_after sample_address None)
       (submit (typed_after sample_address None) Rejected)) = sample_address /\
  can_click
    (run (typed_after sample_address None)
       (submit (typed_after sample_address None) Rejected)) = true.
Proof.
  destruct (controls_after_attempt (typed_after sample_address None) Rejected
              eq_refl) as (Ha & _ & Hc).
  split; [exact Ha|]. rewrite Hc. reflexivity.
Defined.

(** X7. After a request the page never shows both outcomes.  After a
    success with an object as body it has the results section, with the
    address of the response, and no error banner; after any failure it
    has exactly one banner, with a non-empty message, and no results
    section; after a success whose body is [null] it has neither. *)
Theorem outcome_on_page (s : State) (net : outcome) :
  well_formed (st_address s) ->
  exists t, App (run s (submit s net)) = Normal t /\
    ((exists data, net = Resolved (Json (Success data)) /\
        by_class "error-message" t = [] /\
        List.length (by_class "results-section" t) = 1%nat /\
        by_class "address-info" t =
          [el "div" "address-info"
             [Elem "strong" [] [text "Address:"]; text " ";
              text (address data)]]) \/
     (net = Resolved (Json (Null true)) /\
        by_class "error-message" t = [] /\
        by_class "results-section" t = []) \/
     (exists msg, msg <> "" /\
        (forall data, net <> Resolved (Json (Success data))) /\
        net <> Resolved (Json (Null true)) /\
        by_class "error-message" t = [el "div" "error-message" [text msg]] /\
        by_class "results-section" t = [])).
Proof.
  intros Hw.
  destruct (ControlFacts.results_section_normal
              (st_result (run s (submit s net)))) as [res Hres].
  exists (page (run s (submit s net)) res).
  split; [now apply ControlFacts.App_page|].
  rewrite !OutcomeFacts.by_class_page_outer by in_list.
  rewrite OutcomeFacts.by_class_banner.
  rewrite (OutcomeFacts.by_class_banner_other _ "results-section") by reflexivity.
  rewrite (OutcomeFacts.by_class_banner_other _ "address-info") by reflexivity.
  revert res Hres. rewrite (SessionFacts.submit_well_formed s net Hw).
  destruct net as [|[[data|data|[|]]|ok]]; intros res Hres;
    destruct (ControlFacts.results_section_inv _ _ Hres)
      as [[Hn ->]|(r & st & e & Hr & Hs & He & ->)];
    try discriminate Hn; try discriminate Hr.
  - right; right. exists msg_connect. repeat split; try discriminate.
  - left. exists data. split; [reflexivity|].
    assert (r = data) as -> by (cbn in Hr; congruence).
    destruct (OutcomeFacts.by_class_results_tree data st e Hs He)
      as (E1 & E2 & E3).
    cbn [run fold_left apply_event app st_error Str.truthy].
    rewrite E1, E2, E3. repeat split.
  - right; right. exists (or_else (error data) msg_service).
    assert (Hne : or_else (error data) msg_service <> "").
    { unfold or_else. destruct (error data) as [[|c e]|]; discriminate. }
    split; [exact Hne|]. split; [discriminate|]. split; [discriminate|].
    cbn [run fold_left apply_event app st_error completion_events].
    apply StrFacts.truthy_true in Hne. rewrite Hne. split; reflexivity.
  - right; left. repeat split.
  - right; right. exists msg_connect. repeat split; try discriminate.
  - right; right. exists msg_connect. repeat split; try discriminate.
Qed.

Lemma outcome_on_page_sample :
  exists t msg,
    App (run (typed_after sample_address None)
           (submit (typed_after sample_address None) Rejected)) = Normal t /\
    msg <> "" /\
    by_class "error-message" t = [el "div" "error-message" [text msg]] /\
    by_class "results-section" t = [].
Proof.
  destruct (outcome_on_page (typed_after sample_address None) Rejected)
    as (t & HA & [(data & Hd & _)|[(Hd & _)|(msg & Hm & _ & _ & Hb & Hr)]]).
  - split; reflexivity.
  - discriminate Hd.
  - discriminate Hd.
  - exists t, msg. auto.
Defined.

(** X8. Typing into the input changes neither the error banner nor the
    results section: an error stays until the next click, and a shown
    result stays whatever is typed. *)
Theorem typing_keeps_outcome (s : State) (value : string) :
  rendered (by_class "error-message") (setAddress s value)
    = rendered (by_class "error-message") s /\
  rendered (by_class "results-section") (setAddress s value)
    = rendered (by_class "results-section") s.
Proof.
  destruct (ControlFacts.results_section_normal (st_result s)) as [res Hres].
  unfold rendered.
  rewrite (ControlFacts.App_page s res Hres).
  rewrite (ControlFacts.App_page (setAddress s value) res Hres).
  cbn [mbind completion_bind mret completion_ret].
  now rewrite !OutcomeFacts.by_class_page_outer by in_list.
Qed.

(** ** Order of confidences and the indicators *)

Module OrderFacts.
Import Num.

(** [x < y <= z] gives [x < z]. *)
Lemma SFltb_SFleb_trans (x y z : number) :
  SFltb x y = true -> SFleb y z = true -> SFltb x z = true.
Proof.
  unfold SFltb, SFleb, SFcompare.
  destruct x as [sx|sx| |sx mx ex], y as [sy|sy| |sy my ey],
    z as [sz|sz| |sz mz ez];
    try discriminate; try reflexivity;
    try (destruct sx, sy, sz; try discriminate; reflexivity);
    try (destruct sx, sy; try discriminate; reflexivity);
    try (destruct sy, sz; try discriminate; reflexivity);
    try (destruct sx, sz; try discriminate; reflexivity).
  all: change (Pos.compare_cont Eq ?a ?b) with (Pos.compare a b).
  all: destruct sx, sy, sz; try discriminate; try reflexivity.
  all: destruct (Z.compare_spec ex ey), (Z.compare_spec ey ez),
         (Z.compare_spec ex ez); try discriminate; try reflexivity;
         try lia; subst.
  all: destruct (Pos.compare_spec mx my), (Pos.compare_spec my mz),
         (Pos.compare_spec mx mz); try discriminate; try reflexivity;
         try lia.
Qed.

(** Above the threshold stays above it when the confidence grows. *)
Lemma gt_le_trans (c1 c2 t : number) :
  gt c1 t = true -> le c1 c2 = true -> gt c2 t = true.
Proof. unfold gt, le. apply SFltb_SFleb_trans. Qed.

End OrderFacts.

(** X9. The risk level is monotone in the confidence: when the
    confidence grows, a flagged verdict that was "High Risk" stays "High
    Risk" and a not-flagged verdict that was "Low Risk" stays "Low
    Risk".  A NaN confidence is never reported as High or Low. *)
Theorem risk_level_monotone (c1 c2 : number) :
  Num.le c1 c2 = true ->
  (getRiskLevel "flagged" c1 = "High Risk" ->
   getRiskLevel "flagged" c2 = "High Risk") /\
  (getRiskLevel "not flagged" c1 = "Low Risk" ->
   getRiskLevel "not flagged" c2 = "Low Risk") /\
  (forall v, getRiskLevel v S754_nan <> "High Risk" /\
             getRiskLevel v S754_nan <> "Low Risk").
Proof.
  intros Hle. unfold getRiskLevel. cbn [String.eqb Ascii.eqb Bool.eqb andb].
  split; [|split].
  - destruct (Num.gt c1 Num.lit_0_8) eqn:G; [|discriminate]. intros _.
    now rewrite (OrderFacts.gt_le_trans c1 c2 _ G Hle).
  - destruct (Num.gt c1 Num.lit_0_8) eqn:G; [|discriminate]. intros _.
    now rewrite (OrderFacts.gt_le_trans c1 c2 _ G Hle).
  - intros v. change (Num.gt S754_nan Num.lit_0_8) with false.
    destruct (String.eqb v "flagged"), (String.eqb v "not flagged");
      split; discriminate.
Qed.

Lemma risk_level_monotone_sample :
  getRiskLevel "flagged" lit_0_95 = "High Risk" /\
  getRiskLevel "not flagged" lit_0_95 = "Low Risk".
Proof.
  destruct (risk_level_monotone lit_0_81 lit_0_95 eq_refl) as (H1 & H2 & _).
  split; [apply H1|apply H2]; reflexivity.
Defined.

Module IndicatorFacts.
Import TreeFacts.

Lemma by_class_risk_level (s : State) (r : AnalysisResult) (st e : node) :
  features_stats r = Normal st -> explanations_section r = Normal e ->
  by_class "risk-level" (page s (results_tree r st e)) =
    [el "div" "risk-level"
       [text "Risk Level:"; text " ";
        Elem "strong" [] [text (getRiskLevel (verdict r) (confidence r))]]].
Proof.
  intros Hs He. unfold page, error_message.
  destruct (Str.truthy (st_error s)); tree_simpl;
    rewrite (by_class_stats r st _ Hs), (by_class_explanations r e _ He)
      by reflexivity; reflexivity.
Qed.

Lemma by_class_risk_badge (s : State) (r : AnalysisResult) (st e : node) :
  features_stats r = Normal st -> explanations_section r = Normal e ->
  by_class "risk-badge" (page s (results_tree r st e)) =
    [Elem "div"
       [("className", Attr (PStr "risk-badge"));
        ("style", Style [("backgroundColor", getRiskColor (verdict r))])]
       [text (if String.eqb (verdict r) "flagged"
              then "FLAGGED" else "NOT FLAGGED")]].
Proof.
  intros Hs He. unfold page, error_message.
  destruct (Str.truthy (st_error s)); tree_simpl;
    rewrite (by_class_stats r st _ Hs), (by_class_explanations r e _ He)
      by reflexivity; reflexivity.
Qed.

End IndicatorFacts.

(** X10. The three indicators of a rendered result never contradict each
    other: a FLAGGED badge is on the alert colour with "High Risk" or
    "Medium Risk"; a NOT FLAGGED badge is either on the safe colour with
    "Low Risk" or "Medium Risk", or on the neutral colour with
    "Unknown". *)
Theorem indicators_cohere (s : State) (r : AnalysisResult) (t : node) :
  st_result s = Some r ->
  App s = Normal t ->
  exists label colour level,
    map badge_shown (by_class "risk-badge" t) = [Some (label, colour)] /\
    map strong_text (by_class "risk-level" t) = [Some level] /\
    ((label = "FLAGGED" /\ colour = "#ff4444" /\
      (level = "High Risk" \/ level = "Medium Risk")) \/
     (label = "NOT FLAGGED" /\ colour = "#44ff44" /\
      (level = "Low Risk" \/ level = "Medium Risk")) \/
     (label = "NOT FLAGGED" /\ colour = "#ffaa44" /\ level = "Unknown")).
Proof.
  intros Hr HA.
  destruct (TreeFacts.features_stats_normal r) as [st Hs].
  destruct (TreeFacts.explanations_section_normal r) as [e He].
  rewrite (TreeFacts.App_result s r st e Hr Hs He) in HA.
  assert (t = page s (results_tree r st e)) as -> by congruence.
  rewrite (IndicatorFacts.by_class_risk_badge s r st e Hs He).
  rewrite (IndicatorFacts.by_class_risk_level s r st e Hs He).
  unfold getRiskColor, getRiskLevel.
  do 3 eexists. split; [reflexivity|]. split; [reflexivity|].
  destruct (String.eqb (verdict r) "flagged");
    [|destruct (String.eqb (verdict r) "not flagged")].
  - left. destruct (Num.gt _ _); auto.
  - right; left. destruct (Num.gt _ _); auto.
  - right; right. auto.
Qed.

Lemma indicators_cohere_sample :
  exists label colour level,
    map badge_shown
      (by_class "risk-badge"
         (page (typed_after "" (Some bare_result))
            (results_tree bare_result
               (stats_fragment None None None None None)
               (Prim (PBool false))))) = [Some (label, colour)] /\
    label = "NOT FLAGGED" /\ colour = "#ffaa44" /\ level = "Unknown".
Proof.
  destruct (indicators_cohere (typed_after "" (Some bare_result)) bare_result
              _ eq_refl eq_refl)
    as (label & colour & level & Hb & Hl & H).
  exists label, colour, level. split; [exact Hb|].
  cbn in Hb. injection Hb as <- <-.
  destruct H as [(H & _)|[(_ & H & _)|H]]; [discriminate H|discriminate H|].
  exact H.
Defined.

(** ** The percentage shown *)

Module PercentFacts.
Import Num RoundFacts.









End PercentFacts.




(** ** Attempts within a session *)

Module AttemptFacts.
Import TreeFacts.

(** The button of the page. *)
Lemma by_class_button (s : State) (res : node) :
  results_section (st_result s) = Normal res ->
  map only_text (by_class "analyze-btn" (page s res)) =
    [Some (if st_loading s then "Analyzing..." else "Analyze Address")].
Proof.
  intros H.
  pose proof (ControlFacts.by_class_results_outer _ res "analyze-btn"
                ltac:(in_list) H) as E.
  unfold page, error_message. destruct (Str.truthy (st_error s));
    tree_simpl; rewrite E; reflexivity.
Qed.

End AttemptFacts.

(** X12. A request overwrites the whole outcome: from two pages with the
    same well-formed address, whatever result or error each of them
    showed before, the same answer of the network leads to the same
    page. *)
Theorem attempt_forgets_history (s1 s2 : State) (net : outcome) :
  st_address s1 = st_address s2 ->
  well_formed (st_address s1) ->
  run s1 (submit s1 net) = run s2 (submit s2 net).
Proof.
  intros Ha Hw.
  rewrite (SessionFacts.submit_well_formed s1 net Hw).
  rewrite Ha in Hw. rewrite (SessionFacts.submit_well_formed s2 net Hw).
  destruct s1, s2. cbn in Ha. subst.
  destruct net as [|[[data|data|[|]]|ok]]; reflexivity.
Qed.

Lemma attempt_forgets_history_sample :
  run (typed_after sample_address None)
      (submit (typed_after sample_address None) Rejected)
  = run (typed_after sample_address (Some sample_result))
      (submit (typed_after sample_address (Some sample_result)) Rejected).
Proof.
  apply (attempt_forgets_history (typed_after sample_address None)
           (typed_after sample_address (Some sample_result)) Rejected).
  - reflexivity.
  - split; reflexivity.
Defined.

(** X13. On every page of a session the button reads "Analyzing..."
    while a request is pending and "Analyze Address" otherwise. *)
Theorem button_announces_pending (u : ui) :
  reachable u ->
  rendered (fun t => map only_text (by_class "analyze-btn" t)) (shown u) =
    Normal [Some (match in_flight u with
                  | [] => "Analyze Address"
                  | _ => "Analyzing..."
                  end)].
Proof.
  intros H.
  destruct (ControlFacts.results_section_normal (st_result (shown u)))
    as [res Hres].
  unfold rendered. rewrite (ControlFacts.App_page _ res Hres).
  cbn [mbind completion_bind mret completion_ret].
  rewrite (AttemptFacts.by_class_button _ res Hres).
  destruct (SessionFacts.reachable_invariant u H)
    as [(Hf & Hl & _)|(net & Hf & Hl & _)]; now rewrite Hf, Hl.
Qed.

Lemma button_announces_pending_sample :
  rendered (fun t => map only_text (by_class "analyze-btn" t))
    (shown (loading_page Rejected)) = Normal [Some "Analyzing..."].
Proof.
  exact (button_announces_pending (loading_page Rejected)
           (SessionFacts.reach_loading Rejected)).
Defined.

(** X14. No page of a session is stuck: either its input accepts typing
    already, or one answer of the network, whatever it is, leads to a
    page of the session whose input does, with nothing pending. *)
Theorem session_never_stuck (u : ui) :
  reachable u ->
  exists u', (u' = u \/ ui_step u u') /\ reachable u' /\
    in_flight u' = [] /\ can_type (shown u') = true.
Proof.
  intros H.
  destruct (SessionFacts.reachable_invariant u H)
    as [(Hf & Hl & _)|(net & Hf & Hl & _)].
  - exists u. rewrite ControlFacts.can_type_spec, Hl. auto.
  - assert (Hstep : ui_step u
              {| shown := run (shown u)
                            (completion_events net ++ [SetLoading false]);
                 in_flight := [] |}).
    { apply (ui_answer u [] _ []). exact Hf. }
    eexists. split; [right; exact Hstep|].
    split; [exact (rtc_r _ _ _ H Hstep)|].
    split; [reflexivity|].
    rewrite ControlFacts.can_type_spec. cbn [shown].
    unfold run. rewrite fold_left_app. reflexivity.
Qed.

Lemma session_never_stuck_sample :
  exists u', (u' = loading_page Rejected \/ ui_step (loading_page Rejected) u')
    /\ reachable u' /\ in_flight u' = [] /\ can_type (shown u') = true.
Proof.
  exact (session_never_stuck (loading_page Rejected)
           (SessionFacts.reach_loading Rejected)).
Defined.
